(** * DOM Components: the "use dom" directive transform and the dev-server
      virtual entry middleware

    Shallow embedding of
    - [packages/babel-preset-expo/src/use-dom-directive-plugin.ts]
      (the compile-time directive transformer), and
    - the dev-server module that defines [createDomComponentsMiddleware],
      [getDomComponentVirtualProxy] and [getDomComponentHtml].

    JavaScript strings are modelled as [string], read as UTF-8 byte
    strings (the encoding under which [crypto] hashes them).  The Node
    built-ins that are plain string functions ([startsWith], [basename],
    [JSON.stringify] on strings, SHA-1) are written out; the ones that
    depend on the host (URL parsing, [path.join], [path.relative],
    [url.pathToFileURL], the Babel parser) are fields of a [Host] record. *)

From Stdlib Require Import NArith List String Ascii Bool Lia.
From stdpp Require Import gmap strings.

Import ListNotations.
Local Open Scope string_scope.

(* stdpp keeps [simpl] from unfolding [append]; the proofs below compute
   with string literals. *)
#[local] Arguments String.append !_ _ / : simpl nomatch.

(** ** JavaScript string primitives *)

Module JS.

(** Characters that a Rocq string literal cannot spell directly. *)
Definition dquote : string := String (ascii_of_nat 34) EmptyString.
Definition newline : string := String (ascii_of_nat 10) EmptyString.

(** [s.startsWith(p)] *)
Fixpoint startsWith (s p : string) {struct p} : bool :=
  match p, s with
  | EmptyString, _ => true
  | String c p', String d s' => Ascii.eqb c d && startsWith s' p'
  | String _ _, EmptyString => false
  end.

(** [s.includes(needle)] *)
Fixpoint includes (s needle : string) : bool :=
  startsWith s needle ||
  match s with
  | EmptyString => false
  | String _ s' => includes s' needle
  end.

(** [lines.join(sep)] *)
Fixpoint join (sep : string) (lines : list string) : string :=
  match lines with
  | [] => ""
  | [l] => l
  | l :: rest => l ++ sep ++ join sep rest
  end.

(** Truthiness of an optional string: [undefined], [null] and [''] are
    falsy. *)
Definition truthy (v : option string) : bool :=
  match v with
  | Some s => negb (String.eqb s "")
  | None => false
  end.

(** [v ? f(v) : ''] *)
Definition whenTruthy (v : option string) (f : string -> string) : string :=
  match v with
  | Some s => if truthy v then f s else ""
  | None => ""
  end.

Definition hexDigit (n : N) : ascii :=
  match n with
  | 0 => "0" | 1 => "1" | 2 => "2" | 3 => "3" | 4 => "4" | 5 => "5"
  | 6 => "6" | 7 => "7" | 8 => "8" | 9 => "9" | 10 => "a" | 11 => "b"
  | 12 => "c" | 13 => "d" | 14 => "e" | _ => "f"
  end%N%char.

(** One character of [JSON.stringify(s)] for a string [s]: the quote and
    the backslash are escaped, control characters get their short escape
    or [\u00XX], every other byte is copied. *)
Definition escapeChar (c : ascii) : string :=
  let n := N_of_ascii c in
  if (n =? 34)%N then "\" ++ dquote
  else if (n =? 92)%N then "\\"
  else if (n =? 8)%N then "\b"
  else if (n =? 12)%N then "\f"
  else if (n =? 10)%N then "\n"
  else if (n =? 13)%N then "\r"
  else if (n =? 9)%N then "\t"
  else if (n <? 32)%N then
    "\u00" ++ String (hexDigit (N.shiftr n 4))
               (String (hexDigit (N.land n 15)) EmptyString)
  else String c EmptyString.

Fixpoint escape (s : string) : string :=
  match s with
  | EmptyString => EmptyString
  | String c s' => escapeChar c ++ escape s'
  end.

(** [JSON.stringify(s)] for a string [s]. *)
Definition JSON_stringify (s : string) : string :=
  dquote ++ escape s ++ dquote.

(** A byte that [JSON.stringify] copies unchanged. *)
Definition plainChar (c : ascii) : bool :=
  let n := N_of_ascii c in
  negb (n =? 34)%N && negb (n =? 92)%N && (32 <=? n)%N.

Fixpoint plain (s : string) : bool :=
  match s with
  | EmptyString => true
  | String c s' => plainChar c && plain s'
  end.



End JS.

(** [s] between double quotes, nothing escaped. *)
Definition quoted (s : string) : string := JS.dquote ++ s ++ JS.dquote.

(** ** Reading a string literal

    What a JavaScript parser makes of a double-quoted string literal at
    the head of a text: its value, and the text after the closing quote.
    [None] when the text does not begin with a literal (no closing quote,
    an escape that is not one) and also, as [JSON.parse] has it, on a raw
    control character.  Code units above 7F can only be written raw in a
    byte string, so a [\u] escape is read up to 007F. *)

Module Literal.

Definition hexValue (c : ascii) : option N :=
  let n := N_of_ascii c in
  if (48 <=? n)%N && (n <=? 57)%N then Some (n - 48)%N
  else if (97 <=? n)%N && (n <=? 102)%N then Some (n - 87)%N
  else if (65 <=? n)%N && (n <=? 70)%N then Some (n - 55)%N
  else None.

Definition prepend (c : ascii) (r : option (string * string))
    : option (string * string) :=
  match r with
  | Some (value, rest) => Some (String c value, rest)
  | None => None
  end.

(** The characters after the opening quote. *)
Fixpoint readChars (s : string) : option (string * string) :=
  match s with
  | EmptyString => None
  | String c s' =>
      let n := N_of_ascii c in
      if (n =? 34)%N then Some ("", s')
      else if (n =? 92)%N then
        match s' with
        | EmptyString => None
        | String e s'' =>
            let k := N_of_ascii e in
            if (k =? 34)%N || (k =? 92)%N || (k =? 47)%N
            then prepend e (readChars s'')
            else if (k =? 98)%N then prepend (ascii_of_N 8) (readChars s'')
            else if (k =? 102)%N then prepend (ascii_of_N 12) (readChars s'')
            else if (k =? 110)%N then prepend (ascii_of_N 10) (readChars s'')
            else if (k =? 114)%N then prepend (ascii_of_N 13) (readChars s'')
            else if (k =? 116)%N then prepend (ascii_of_N 9) (readChars s'')
            else if (k =? 117)%N then
              match s'' with
              | String h1 (String h2 (String h3 (String h4 s4))) =>
                  match hexValue h1, hexValue h2, hexValue h3, hexValue h4 with
                  | Some a, Some b, Some c', Some d =>
                      let code := (((a * 16 + b) * 16 + c') * 16 + d)%N in
                      if (code <? 128)%N
                      then prepend (ascii_of_N code) (readChars s4)
                      else None
                  | _, _, _, _ => None
                  end
              | _ => None
              end
            else None
        end
      else if (n <? 32)%N then None
      else prepend c (readChars s')
  end.

Definition readLiteral (s : string) : option (string * string) :=
  match s with
  | String q s' => if (N_of_ascii q =? 34)%N then readChars s' else None
  | EmptyString => None
  end.

End Literal.

(** ** The parts of a URL reference

    How [new URL(reference, base)] cuts a reference that begins with a
    slash, before it resolves it against [base]: the path runs up to the
    first [?] or [#], the query from after the first [?] up to the first
    [#] (RFC 3986, 3.3 and 3.4; the path and query states of the URL
    standard). *)

Module Reference.

Definition isQuestion (c : ascii) : bool := Ascii.eqb c "?".
Definition isHash (c : ascii) : bool := Ascii.eqb c "#".

Fixpoint untilHash (s : string) : string :=
  match s with
  | EmptyString => EmptyString
  | String c s' => if isHash c then EmptyString else String c (untilHash s')
  end.

Fixpoint path (reference : string) : string :=
  match reference with
  | EmptyString => EmptyString
  | String c rest =>
      if isQuestion c || isHash c then EmptyString else String c (path rest)
  end.

(** [None]: the reference has no query. *)
Fixpoint query (reference : string) : option string :=
  match reference with
  | EmptyString => None
  | String c rest =>
      if isHash c then None
      else if isQuestion c then Some (untilHash rest)
      else query rest
  end.



End Reference.

(** ** SHA-1 ([crypto.createHash('sha1').update(s).digest('hex')])

    FIPS 180-4 over the bytes of the string; 32-bit words are [N] with the
    wrap-around written out. *)

Module Sha1.

Local Open Scope N_scope.

Definition mask32 : N := 0xFFFFFFFF.
Definition add32 (a b : N) : N := N.land (a + b) mask32.
Definition rotl32 (n x : N) : N :=
  N.land (N.lor (N.shiftl x n) (N.shiftr x (32 - n))) mask32.
Definition not32 (x : N) : N := N.lxor x mask32.

Fixpoint bytes (s : string) : list N :=
  match s with
  | EmptyString => []
  | String c s' => N_of_ascii c :: bytes s'
  end.

(** Big-endian bytes of [x], [n] of them. *)
Fixpoint bigEndian (n : nat) (x : N) : list N :=
  match n with
  | O => []
  | S n' => N.land (N.shiftr x (8 * N.of_nat n')) 255 :: bigEndian n' x
  end.

(** Message padding: a 1 bit, zeros up to 56 mod 64 bytes, then the bit
    length on 64 bits. *)
Definition pad (msg : list N) : list N :=
  let len := List.length msg in
  let zeros := Nat.modulo (119 - Nat.modulo len 64) 64 in
  msg ++ [128] ++ List.repeat 0 zeros ++ bigEndian 8 (8 * N.of_nat len).

Fixpoint words (fuel : nat) (bs : list N) : list N :=
  match fuel, bs with
  | S fuel', b0 :: b1 :: b2 :: b3 :: rest =>
      (N.shiftl b0 24 + N.shiftl b1 16 + N.shiftl b2 8 + b3)
        :: words fuel' rest
  | _, _ => []
  end.

(** The message schedule, most recent word first: [rev] of [W_0 .. W_t]. *)
Fixpoint schedule (n : nat) (recent : list N) : list N :=
  match n with
  | O => recent
  | S n' =>
      let w := rotl32 1 (N.lxor (N.lxor (nth 2 recent 0) (nth 7 recent 0))
                           (N.lxor (nth 13 recent 0) (nth 15 recent 0))) in
      schedule n' (w :: recent)
  end.

Definition f (t : nat) (b c d : N) : N :=
  if (t <? 20)%nat then N.lor (N.land b c) (N.land (not32 b) d)
  else if (t <? 40)%nat then N.lxor (N.lxor b c) d
  else if (t <? 60)%nat then
    N.lor (N.lor (N.land b c) (N.land b d)) (N.land c d)
  else N.lxor (N.lxor b c) d.

Definition K (t : nat) : N :=
  if (t <? 20)%nat then 0x5A827999
  else if (t <? 40)%nat then 0x6ED9EBA1
  else if (t <? 60)%nat then 0x8F1BBCDC
  else 0xCA62C1D6.

Record state := mkState { ha : N; hb : N; hc : N; hd : N; he : N }.

Definition init : state :=
  mkState 0x67452301 0xEFCDAB89 0x98BADCFE 0x10325476 0xC3D2E1F0.

Fixpoint rounds (t : nat) (ws : list N) (s : state) : state :=
  match ws with
  | [] => s
  | w :: ws' =>
      let tmp :=
        add32 (add32 (add32 (add32 (rotl32 5 (ha s))
                               (f t (hb s) (hc s) (hd s))) (he s)) w) (K t) in
      rounds (S t) ws' (mkState tmp (ha s) (rotl32 30 (hb s)) (hc s) (hd s))
  end.

Definition compress (h : state) (block : list N) : state :=
  let w := List.rev (schedule 64 (List.rev block)) in
  let r := rounds 0 w h in
  mkState (add32 (ha h) (ha r)) (add32 (hb h) (hb r)) (add32 (hc h) (hc r))
          (add32 (hd h) (hd r)) (add32 (he h) (he r)).

Fixpoint blocks (fuel : nat) (ws : list N) (h : state) : state :=
  match fuel, ws with
  | S fuel', _ :: _ =>
      blocks fuel' (List.skipn 16 ws) (compress h (List.firstn 16 ws))
  | _, _ => h
  end.

Fixpoint hex (digits : nat) (x : N) : string :=
  match digits with
  | O => EmptyString
  | S d' =>
      String (JS.hexDigit (N.land (N.shiftr x (4 * N.of_nat d')) 15))
             (hex d' x)
  end.

Definition digest (s : string) : state :=
  let bs := pad (bytes s) in
  let ws := words (List.length bs) bs in
  blocks (List.length ws) ws init.

(** The 40 hexadecimal digits of the digest. *)
Definition sha1 (s : string) : string :=
  let h := digest s in
  (hex 8 (ha h) ++ hex 8 (hb h) ++ hex 8 (hc h) ++ hex 8 (hd h)
     ++ hex 8 (he h))%string.

End Sha1.

(** ** Results of fallible code *)

(** What the JavaScript code can throw. *)
Inductive Error :=
| PlainError (message : string)       (* [new Error(message)] *)
| CodeFrameError (message : string)   (* [path.buildCodeFrameError(message)] *)
| SyntaxError (code : string).        (* [template.ast(code)] rejects [code] *)

Inductive Result (A : Type) :=
| Ok (a : A)
| Throw (e : Error).

Arguments Ok {A} a.
Arguments Throw {A} e.

Definition bind {A B : Type} (r : Result A) (k : A -> Result B) : Result B :=
  match r with
  | Ok a => k a
  | Throw e => Throw e
  end.

Notation "'let!' x ':=' r 'in' k" := (bind r (fun x => k))
  (at level 10, x name, r at level 100, k at level 200).

Definition succeeds {A : Type} (r : Result A) : Prop := exists a, r = Ok a.
Definition fails {A : Type} (r : Result A) : Prop := exists e, r = Throw e.

(** ** Babel syntax trees, as far as the plugin looks at them *)

Inductive NodeType :=
| ExportNamedDeclaration
| ExportDefaultDeclaration
| OtherNode (type : string).

#[warning="-register-all"]
Inductive Node := mkNode (type : NodeType) (children : list Node).

(** [state.file.metadata] is typed [any]: it may be something that is not
    an object.  Field values other than strings are kept opaque. *)
Inductive MetaValue :=
| MString (s : string)
| MOpaque (tag : nat).

Inductive Metadata :=
| MetadataObject (fields : gmap string MetaValue)
| MetadataNotObject.

(** The [Program] node ([path.node]) and the compile state ([state.file])
    the visitor reads and mutates. *)
Record ProgramState := mkProgramState {
  directives : list string;        (* [directive.value.value] of each one *)
  body : list Node;
  filename : option string;        (* [state.file.opts.filename] *)
  metadata : Metadata              (* [state.file.metadata] *)
}.

(** The parsed request URL, as far as the middleware reads it. *)
Record URL := mkURL {
  pathname : string;
  searchParams : list (string * string)
}.

(** Options handed to [createBundleUrlPath]: the fields the middleware
    forces, over the instance's own options. *)
Record ExpoMetroOptions (Inherited : Type) := mkExpoMetroOptions {
  inherited : Inherited;           (* [...instanceMetroOptions] *)
  isDOM : bool;
  mainModuleName : string;
  bytecode : bool;
  platform : string;
  isExporting : bool;
  engine : string;
  lazy : bool
}.

Arguments mkExpoMetroOptions {Inherited}.
Arguments inherited {Inherited}.
Arguments isDOM {Inherited}.
Arguments mainModuleName {Inherited}.
Arguments bytecode {Inherited}.
Arguments platform {Inherited}.
Arguments isExporting {Inherited}.
Arguments engine {Inherited}.
Arguments lazy {Inherited}.

(** ** The host: Node and bundler functions the code calls

    These are functions of the platform (Node's [path] and [url] modules
    differ between POSIX and Windows, URL parsing is WHATWG's, the parser is
    Babel's) or of modules of the repository that the two files import. *)
Class Host := {
  (* [url.pathToFileURL(p).href] *)
  pathToFileURL : string -> string;
  (* [path.basename(p)] *)
  basename : string -> string;
  (* [path.dirname(p)] *)
  dirname : string -> string;
  (* [path.join(...parts)] *)
  path_join : list string -> string;
  (* [path.relative(from, to)] *)
  path_relative : string -> string -> string;
  (* [template.ast(code)]: the statements of [code], or a syntax error *)
  template_ast : string -> option (list Node);
  (* [new URL(input)] and [new URL(input, base)]; [None] when it throws *)
  new_URL : string -> option string -> option URL;
  (* [new URL(input, base).toString()] for the bundle path against the
     running dev server's URL *)
  URL_toString : string -> string -> string;
  (* [fileURLToFilePath] of [../metro/createServerComponentsMiddleware] *)
  fileURLToFilePath : string -> string;
  (* the type of [instanceMetroOptions] and [createBundleUrlPath] of
     [./metroOptions] *)
  InstanceMetroOptions : Type;
  createBundleUrlPath : ExpoMetroOptions InstanceMetroOptions -> string
}.

(** ** The directive transformer
    ([packages/babel-preset-expo/src/use-dom-directive-plugin.ts]) *)

Section Transformer.

Context {H : Host}.

(** [assertExpoMetadata] *)
Definition assertExpoMetadata (m : Metadata) : Result (gmap string MetaValue) :=
  match m with
  | MetadataObject fields => Ok fields
  | MetadataNotObject =>
      Throw (PlainError "Expected Babel state.file.metadata to be an object")
  end.

Definition namedExportPresent : Error :=
  CodeFrameError
    ("Modules with the " ++ JS.dquote ++ "use dom" ++ JS.dquote
       ++ " directive only support a single default export.").

(** [path.traverse({ ExportNamedDeclaration, ExportDefaultDeclaration })]:
    a depth-first walk in source order.  The first named export throws;
    a default export sets the flag. *)
Fixpoint traverseNode (n : Node) (hasDefaultExport : bool) : Result bool :=
  match n with
  | mkNode ExportNamedDeclaration _ => Throw namedExportPresent
  | mkNode type children =>
      let flag :=
        match type with
        | ExportDefaultDeclaration => true
        | _ => hasDefaultExport
        end in
      (fix traverseList (ns : list Node) (flag : bool) : Result bool :=
         match ns with
         | [] => Ok flag
         | n' :: ns' =>
             let! flag' := traverseNode n' flag in traverseList ns' flag'
         end) children flag
  end.

Fixpoint traverse (ns : list Node) (hasDefaultExport : bool) : Result bool :=
  match ns with
  | [] => Ok hasDefaultExport
  | n :: ns' =>
      let! flag := traverseNode n hasDefaultExport in traverse ns' flag
  end.

(** ['...' + platform] for a platform that may be [undefined]. *)
Definition platformToString (platform : option string) : string :=
  match platform with
  | Some p => p
  | None => "undefined"
  end.

(** [platform === name] *)
Definition platformIs (platform : option string) (name : string) : bool :=
  match platform with
  | Some p => String.eqb p name
  | None => false
  end.

(** Lines 70-93: the declaration of [source] pushed onto [proxyModule]. *)
Definition sourceDeclaration (isProduction : bool) (platform : option string)
    (filePath outputKey : string) : Result string :=
  if isProduction then
    let hash := Sha1.sha1 outputKey in
    if platformIs platform "ios" then
      let outputName := "www.bundle/" ++ hash ++ ".html" in
      Ok ("const source = { uri: " ++ JS.JSON_stringify outputName ++ " };")
    else if platformIs platform "android" then
      let outputName := "www/" ++ hash ++ ".html" in
      Ok ("const source = { uri: " ++ JS.dquote ++ "file:///android_asset"
            ++ JS.dquote ++ " + " ++ JS.JSON_stringify outputName ++ " };")
    else
      Throw (PlainError
        ("production " ++ JS.dquote ++ "use dom" ++ JS.dquote
           ++ " directive is not supported yet for platform: "
           ++ platformToString platform))
  else
    Ok ("const source = { uri: new URL(" ++ JS.dquote ++ "/_expo/@dom/"
          ++ basename filePath ++ "?file=" ++ JS.dquote ++ " + "
          ++ JS.JSON_stringify outputKey ++ ", require(" ++ JS.dquote
          ++ "react-native/Libraries/Core/Devtools/getDevServer" ++ JS.dquote
          ++ ")().url).toString() };").

Definition proxyImports : string :=
  "import React from 'react';
import { WebView } from 'expo/dom/internal';".

Definition proxyExport : string :=
  "
export default React.forwardRef((props, ref) => {
  return React.createElement(WebView, { ref, ...props, source });
});".

(** Lines 64-100: the text of the proxy module. *)
Definition proxyModule (isProduction : bool) (platform : option string)
    (filePath outputKey : string) : Result (list string) :=
  let! source := sourceDeclaration isProduction platform filePath outputKey in
  Ok [proxyImports; source; proxyExport].

Definition missingDefaultExport : Error :=
  CodeFrameError
    ("The " ++ JS.dquote ++ "use dom" ++ JS.dquote
       ++ " directive requires a default export to be present in the file.").

Definition missingFilename : Error :=
  PlainError "[Babel] Expected a filename to be set in the state".

(** Lines 102-111: the body is replaced by the parsed proxy module and the
    output key is recorded in the metadata. *)
Definition finish (filePath : string) (st : ProgramState) (lines : list string)
    : Result ProgramState :=
  match template_ast (JS.join JS.newline lines) with
  | None => Throw (SyntaxError (JS.join JS.newline lines))
  | Some ast =>
      let! fields := assertExpoMetadata (metadata st) in
      Ok (mkProgramState [] ast (filename st)
            (MetadataObject
               (<["expoDomComponentReference" := MString (pathToFileURL filePath)]>
                  fields)))
  end.

(** Lines 42-111, reached once the directive and the filename are there. *)
Definition rewrite (isProduction : bool) (platform : option string)
    (filePath : string) (st : ProgramState) : Result ProgramState :=
  let! hasDefaultExport := traverse (body st) false in
  if negb hasDefaultExport then Throw missingDefaultExport
  else
    let outputKey := pathToFileURL filePath in
    let! lines := proxyModule isProduction platform filePath outputKey in
    finish filePath st lines.

(** Lines 25-27:
    [path.node.directives.some((directive) => directive.value.value === 'use dom')] *)
Definition hasUseDomDirective (st : ProgramState) : bool :=
  existsb (fun directive => String.eqb directive "use dom") (directives st).

(** The [Program] visitor of [expoUseDomDirectivePlugin]; [isProduction]
    and [platform] are what [api.caller] gave when the plugin was built. *)
Definition expoUseDomDirectivePlugin (isProduction : bool)
    (platform : option string) (st : ProgramState) : Result ProgramState :=
  if platformIs platform "web" then Ok st
  else
    if negb (JS.truthy (filename st)) then Throw missingFilename
    else if negb (hasUseDomDirective st) then Ok st
    else
      match filename st with
      | Some filePath => rewrite isProduction platform filePath st
      | None => Throw missingFilename
      end.

End Transformer.

(** ** Which declarations a module holds

    [occurs kind nodes]: a node of that kind is among [nodes] or below one
    of them, which is where [path.traverse] looks. *)

Definition isNamedExport (type : NodeType) : bool :=
  match type with
  | ExportNamedDeclaration => true
  | _ => false
  end.

Definition isDefaultExport (type : NodeType) : bool :=
  match type with
  | ExportDefaultDeclaration => true
  | _ => false
  end.

Fixpoint occursIn (kind : NodeType -> bool) (n : Node) : bool :=
  match n with
  | mkNode type children => kind type || existsb (occursIn kind) children
  end.

Definition occurs (kind : NodeType -> bool) (nodes : list Node) : bool :=
  existsb (occursIn kind) nodes.

(** What the traversal comes to, given whether a named and a default
    export occur. *)
Definition traversed (named default flag : bool) : Result bool :=
  if named then Throw namedExportPresent else Ok (flag || default).



(** ** The dev server's world: files, the timer and the log *)

Inductive Effect :=
| Mkdir (dir : string)                 (* [fs.mkdirSync(dir, { recursive: true })] *)
| Stat (path : string)                 (* [fileExistsAsync(path)] *)
| WriteFile (path contents : string)   (* [fs.promises.writeFile(path, contents)] *)
| SetTimeout (ms : nat)                (* [await new Promise((res) => setTimeout(res, ms))] *)
| LogWarn (message : string).          (* [Log.warn(message)] *)

Record World := mkWorld {
  files : gmap string string;          (* regular files and their contents *)
  dirs : gset string;                  (* directories made so far *)
  warned : bool;                       (* the memo of [warnUnstable] *)
  trace : list Effect                  (* what happened, oldest first *)
}.

(** Asynchronous code is run to completion, one step after the other. *)
Definition Async (A : Type) : Type := World -> A * World.

Definition ret {A : Type} (a : A) : Async A := fun w => (a, w).

Definition andThen {A B : Type} (m : Async A) (k : A -> Async B) : Async B :=
  fun w => let (a, w') := m w in k a w'.

Notation "'await!' x ':=' m 'in' k" := (andThen m (fun x => k))
  (at level 10, x name, m at level 100, k at level 200).
Notation "'do!' m 'in' k" := (andThen m (fun _ => k))
  (at level 10, m at level 100, k at level 200).

Definition emit (e : Effect) (w : World) : World :=
  mkWorld (files w) (dirs w) (warned w) (trace w ++ [e]).

Definition mkdirSync (dir : string) : Async unit :=
  fun w => let w := emit (Mkdir dir) w in
           (tt, mkWorld (files w) ({[dir]} ∪ dirs w) (warned w) (trace w)).

(** Modelled from the spec: [fileExistsAsync] of [utils/dir] is not among
    the sources; it answers whether the path already exists (4.3, step 6). *)
Definition fileExistsAsync (path : string) : Async bool :=
  fun w => (bool_decide (is_Some (files w !! path)), emit (Stat path) w).

Definition writeFile (path contents : string) : Async unit :=
  fun w => let w := emit (WriteFile path contents) w in
           (tt, mkWorld (<[path := contents]> (files w)) (dirs w) (warned w)
                  (trace w)).

Definition sleep (ms : nat) : Async unit :=
  fun w => (tt, emit (SetTimeout ms) w).

(** Modelled from the spec: [memoize] of [utils/fn] is not among the
    sources; [warnUnstable] warns on its first call only (4.4, step 5). *)
Definition warnUnstable : Async unit :=
  fun w =>
    if warned w then (tt, w)
    else
      let w := emit (LogWarn "Using experimental DOM Components API. Production exports may not work as expected.") w in
      (tt, mkWorld (files w) (dirs w) true (trace w)).

(** ** The HTML shell and the virtual entry module *)

Definition htmlHead : string :=
  "
<!DOCTYPE html>
<html>
    <head>
        <meta charset=" ++ quoted "utf-8" ++ " />
        <meta httpEquiv=" ++ quoted "X-UA-Compatible" ++ " content="
    ++ quoted "IE=edge" ++ " />
        <meta name=" ++ quoted "viewport" ++ " content="
    ++ quoted "width=device-width, initial-scale=1, user-scalable=no" ++ ">
        ".

Definition htmlMiddle : string :=
  "
        <style id=" ++ quoted "expo-dom-component-style" ++ ">
        /* These styles make the body full-height */
        html,
        body {
          -webkit-overflow-scrolling: touch; /* Enables smooth momentum scrolling */
        }
        /* These styles make the root element full-height */
        #root {
          display: flex;
          flex: 1;
        }
        </style>
    </head>
    <body>
    <noscript>DOM Components require <code>javaScriptEnabled</code></noscript>
        <!-- Root element for the DOM component. -->
        <div id=" ++ quoted "root" ++ "></div>
        ".

Definition htmlTail : string :=
  "
    </body>
</html>".

(** [getDomComponentHtml(src?, { title } = {})] *)
Definition getDomComponentHtml (src title : option string) : string :=
  htmlHead
    ++ JS.whenTruthy title (fun title => "<title>" ++ title ++ "</title>")
    ++ htmlMiddle
    ++ JS.whenTruthy src (fun src =>
         "<script crossorigin src=" ++ JS.dquote ++ src ++ JS.dquote
           ++ "></script>")
    ++ htmlTail.

Record EntryFile := mkEntryFile {
  filePath : string;
  contents : string
}.

Section DevServer.

Context {H : Host}.

(** Lines 112-116 of [getDomComponentVirtualProxy]: the path of the file
    relative to the generated entry, made to begin with a dot. *)
Definition relativeImport (generatedEntry file : string) : string :=
  let relativeFilePath := path_relative (dirname generatedEntry) file in
  if negb (JS.startsWith relativeFilePath ".") then "./" ++ relativeFilePath
  else relativeFilePath.

(** [getDomComponentVirtualProxy(generatedEntry, filePath)] *)
Definition getDomComponentVirtualProxy (generatedEntry file : string)
    : EntryFile :=
  let relativeFilePath := relativeImport generatedEntry file in
  let stringifiedFilePath := JS.JSON_stringify relativeFilePath in
  mkEntryFile generatedEntry
    ("
// Entry file for the web-side of a DOM Component.
import { registerDOMComponent } from 'expo/dom/internal';

registerDOMComponent(() => import(" ++ stringifiedFilePath ++ "), "
       ++ stringifiedFilePath ++ ");
").

(** The arguments of [createDomComponentsMiddleware]. *)
Record Config := mkConfig {
  projectRoot : string;
  metroRoot : string;
  getDevServerUrl : string;        (* what [getDevServerUrl()] returns *)
  instanceMetroOptions : InstanceMetroOptions
}.

Variable cfg : Config.

(** The file the generator hashes: the path behind a [file://] URL, or
    the argument itself. *)
Definition entryFilePath (file : string) : string :=
  if JS.startsWith file "file://" then fileURLToFilePath file else file.

Definition generatedEntryPath (file : string) : string :=
  let hash := Sha1.sha1 (entryFilePath file) in
  path_join [projectRoot cfg; ".expo/@dom"; hash ++ ".js"].

(** [getDomComponentVirtualEntryModuleAsync(file)] *)
Definition getDomComponentVirtualEntryModuleAsync (file : string)
    : Async string :=
  let filePath' := entryFilePath file in
  let generatedEntry := generatedEntryPath file in
  let entryFile := getDomComponentVirtualProxy generatedEntry filePath' in
  do! mkdirSync (dirname (filePath entryFile)) in
  await! exists_ := fileExistsAsync (filePath entryFile) in
  do! writeFile (filePath entryFile) (contents entryFile) in
  do! (if negb exists_ then sleep 1000 else ret tt) in
  ret generatedEntry.

(** [coerceUrl(url)]; [None] when the second attempt throws as well. *)
Definition coerceUrl (url : string) : option URL :=
  match new_URL url None with
  | Some u => Some u
  | None => new_URL url (Some "https://localhost:0")
  end.

(** [url.searchParams.get(name)] *)
Fixpoint searchParams_get (params : list (string * string)) (name : string)
    : option string :=
  match params with
  | [] => None
  | (k, v) :: rest =>
      if String.eqb k name then Some v else searchParams_get rest name
  end.

(** ['...' + file] for a value that may be [null]. *)
Definition nullableToString (v : option string) : string :=
  match v with
  | Some s => s
  | None => "null"
  end.

Record ServerRequest := mkServerRequest {
  url : option string
}.

Record ServerResponse := mkServerResponse {
  statusCode : nat;
  statusMessage : option string;
  headers : gmap string string;    (* by the names [res.setHeader] was given *)
  body_sent : option string;       (* the argument of [res.end], if any *)
  ended : bool
}.

(** How a call of the middleware ends. *)
Inductive Outcome :=
| CalledNext                       (* [return next()] *)
| Responded                        (* [res.end(...)] *)
| Rejected.                        (* the request URL cannot be parsed *)

Definition bundleOptions (generatedEntry : string)
    : ExpoMetroOptions InstanceMetroOptions :=
  mkExpoMetroOptions (instanceMetroOptions cfg)
    true                                         (* isDOM *)
    (path_relative (metroRoot cfg) generatedEntry) (* mainModuleName *)
    false                                        (* bytecode *)
    "web"                                        (* platform *)
    false                                        (* isExporting *)
    "hermes"                                     (* engine *)
    true.                                        (* lazy *)

(** Lines 64-66: the answer to a missing or non-file [file] parameter. *)
Definition invalidFilePath (file : option string) (res : ServerResponse)
    : ServerResponse :=
  mkServerResponse 400 (Some ("Invalid file path: " ++ nullableToString file))
    (headers res) None true.

(** Lines 69-98: the entry is generated and the shell is sent. *)
Definition serveDomComponent (file : string) (res : ServerResponse)
    : Async (Outcome * ServerResponse) :=
  do! warnUnstable in
  await! generatedEntry := getDomComponentVirtualEntryModuleAsync file in
  let metroUrl :=
    URL_toString (createBundleUrlPath (bundleOptions generatedEntry))
                 (getDevServerUrl cfg) in
  ret (Responded,
       mkServerResponse 200 (statusMessage res)
         (<["Content-Type" := "text/html"]> (headers res))
         (Some (getDomComponentHtml (Some metroUrl) (Some (basename file))))
         true).

(** The handler returned by [createDomComponentsMiddleware]. *)
Definition createDomComponentsMiddleware (req : ServerRequest)
    (res : ServerResponse) : Async (Outcome * ServerResponse) :=
  match url req with
  | None => ret (CalledNext, res)
  | Some requestUrl =>
      if negb (JS.truthy (url req)) then ret (CalledNext, res)
      else
        match coerceUrl requestUrl with
        | None => ret (Rejected, res)
        | Some parsed =>
            if negb (JS.startsWith (pathname parsed) "/_expo/@dom")
            then ret (CalledNext, res)
            else
              let file := searchParams_get (searchParams parsed) "file" in
              match file with
              | Some f =>
                  if negb (JS.truthy file) || negb (JS.startsWith f "file://")
                  then ret (Responded, invalidFilePath file res)
                  else serveDomComponent f res
              | None => ret (Responded, invalidFilePath file res)
              end
        end
  end.

(** The text the generator writes for [file]. *)
Definition entryText (file : string) : string :=
  contents (getDomComponentVirtualProxy (generatedEntryPath file)
              (entryFilePath file)).

(** The URL of the bundle that the shell served for [file] loads. *)
Definition bundleUrlFor (file : string) : string :=
  URL_toString (createBundleUrlPath (bundleOptions (generatedEntryPath file)))
               (getDevServerUrl cfg).

End DevServer.

(** ** The server at work

    The handler is called once for each request, with a response of its
    own; here one call has returned before the next one starts. *)
Fixpoint handleAll `{Host} (cfg : Config)
    (requests : list (ServerRequest * ServerResponse)) (w : World) : World :=
  match requests with
  | [] => w
  | (req, res) :: rest =>
      handleAll cfg rest (snd (createDomComponentsMiddleware cfg req res w))
  end.

(** The request [req] asks for the DOM component [file]: its URL parses,
    the path has the prefix of the middleware, and [file] is the [file]
    parameter, a [file://] URL (lines 51-63). *)
Definition asksFor `{Host} (req : ServerRequest) (file : string) : Prop :=
  exists requestUrl parsed,
    url req = Some requestUrl
    /\ requestUrl <> ""
    /\ coerceUrl requestUrl = Some parsed
    /\ JS.startsWith (pathname parsed) "/_expo/@dom" = true
    /\ searchParams_get (searchParams parsed) "file" = Some file
    /\ JS.startsWith file "file://" = true.

Definition isWarning (e : Effect) : bool :=
  match e with
  | LogWarn _ => true
  | _ => false
  end.

Definition isTimer (e : Effect) : bool :=
  match e with
  | SetTimeout _ => true
  | _ => false
  end.

(** How often the log was written to, and how often the timer was set. *)
Definition warnings (w : World) : nat :=
  List.length (List.filter isWarning (trace w)).

Definition timers (w : World) : nat :=
  List.length (List.filter isTimer (trace w)).

(** What a call that serves [file] adds to the trace of [w]. *)
Definition servedSteps `{Host} (cfg : Config) (file : string) (w : World)
    : list Effect :=
  ((if warned w then []
    else [LogWarn "Using experimental DOM Components API. Production exports may not work as expected."])
   ++ [Mkdir (dirname (generatedEntryPath cfg file));
       Stat (generatedEntryPath cfg file);
       WriteFile (generatedEntryPath cfg file) (entryText cfg file)]
   ++ (if bool_decide (is_Some (files w !! generatedEntryPath cfg file))
       then [] else [SetTimeout 1000]))%list.

(** ** A POSIX host

    Node's [path] functions as they are on POSIX ([lib/path.js], [posix]),
    on paths resolved against a working directory.  URL handling and the
    bundler's functions are reduced to what requests and files made of
    unreserved characters need; the parser keeps the text it is given.  The
    theorems below hold for every host; this one runs the examples. *)

Module Posix.

Definition slash : ascii := "/"%char.

Fixpoint reverseOnto (s acc : string) : string :=
  match s with
  | EmptyString => acc
  | String c s' => reverseOnto s' (String c acc)
  end.

Definition reverse (s : string) : string := reverseOnto s "".

Fixpoint dropSlashes (s : string) : string :=
  match s with
  | String c s' => if Ascii.eqb c slash then dropSlashes s' else s
  | EmptyString => s
  end.

Fixpoint untilSlash (s : string) : string :=
  match s with
  | String c s' =>
      if Ascii.eqb c slash then "" else String c (untilSlash s')
  | EmptyString => ""
  end.

(** [posix.basename(path)]: the scan from the end skips the trailing
    separators, then stops at the first separator it meets. *)
Definition basename (path : string) : string :=
  reverse (untilSlash (dropSlashes (reverse path))).

(** A path made of separators only, for which [basename] is empty. *)
Fixpoint slashOnly (s : string) : bool :=
  match s with
  | EmptyString => true
  | String c s' => Ascii.eqb c slash && slashOnly s'
  end.

(** The loop of [posix.dirname] over the reversed path; index 0 is not
    visited.  [Some r] is the reversed [path.slice(0, end)]. *)
Fixpoint dirnameScan (r : string) (matchedSlash : bool) : option string :=
  match r with
  | EmptyString => None
  | String c r' =>
      match r' with
      | EmptyString => None
      | String _ _ =>
          if Ascii.eqb c slash then
            if matchedSlash then dirnameScan r' true else Some r'
          else dirnameScan r' false
      end
  end.

Definition dirname (path : string) : string :=
  if String.eqb path "" then "."
  else
    let hasRoot := JS.startsWith path "/" in
    match dirnameScan (reverse path) true with
    | None => if hasRoot then "/" else "."
    | Some r =>
        if hasRoot && (String.length r =? 1)%nat then "//" else reverse r
    end.

(** [s.split('/')] *)
Fixpoint split (s : string) : list string :=
  match s with
  | EmptyString => [""]
  | String c s' =>
      if Ascii.eqb c slash then "" :: split s'
      else
        match split s' with
        | seg :: rest => String c seg :: rest
        | [] => [String c ""]
        end
  end.

(** A segment that [normalize] keeps as it is: not empty, without a
    separator, and neither [.] nor [..]. *)
Fixpoint slashFree (s : string) : bool :=
  match s with
  | EmptyString => true
  | String c s' => negb (Ascii.eqb c slash) && slashFree s'
  end.

Definition properSegment (s : string) : bool :=
  slashFree s && negb (String.eqb s "") && negb (String.eqb s ".")
    && negb (String.eqb s "..").

Definition blankOrProper (seg : string) : Prop :=
  seg = "" \/ properSegment seg = true.

Definition nonBlank (seg : string) : bool := negb (String.eqb seg "").

(** [normalizeString]: the segments kept, most recent first. *)
Fixpoint normalizeSegments (allowAboveRoot : bool) (segs kept : list string)
    : list string :=
  match segs with
  | [] => kept
  | seg :: segs' =>
      if String.eqb seg "" || String.eqb seg "." then
        normalizeSegments allowAboveRoot segs' kept
      else if String.eqb seg ".." then
        match kept with
        | last :: kept' =>
            if String.eqb last ".." then
              normalizeSegments allowAboveRoot segs'
                (if allowAboveRoot then ".." :: kept else kept)
            else normalizeSegments allowAboveRoot segs' kept'
        | [] =>
            normalizeSegments allowAboveRoot segs'
              (if allowAboveRoot then [".."] else [])
        end
      else normalizeSegments allowAboveRoot segs' (seg :: kept)
  end.

Definition normalizeString (path : string) (allowAboveRoot : bool) : string :=
  JS.join "/" (List.rev (normalizeSegments allowAboveRoot (split path) [])).

Definition endsWithSlash (path : string) : bool :=
  JS.startsWith (reverse path) "/".

(** [posix.normalize(path)] *)
Definition normalize (path : string) : string :=
  if String.eqb path "" then "."
  else
    let isAbsolute := JS.startsWith path "/" in
    let trailingSeparator := endsWithSlash path in
    let p := normalizeString path (negb isAbsolute) in
    if String.eqb p "" then
      if isAbsolute then "/" else if trailingSeparator then "./" else "."
    else
      let p := if trailingSeparator then p ++ "/" else p in
      if isAbsolute then "/" ++ p else p.

(** [posix.join(...parts)] *)
Definition join (parts : list string) : string :=
  match List.filter (fun part => negb (String.eqb part "")) parts with
  | [] => "."
  | nonEmpty => normalize (JS.join "/" nonEmpty)
  end.

(** [posix.resolve(path)] in the working directory [cwd] (an absolute
    path). *)
Definition resolve (cwd path : string) : string :=
  let full := if JS.startsWith path "/" then path else cwd ++ "/" ++ path in
  "/" ++ normalizeString full false.

Fixpoint dropCommon (xs ys : list string) : list string * list string :=
  match xs, ys with
  | x :: xs', y :: ys' =>
      if String.eqb x y then dropCommon xs' ys' else (xs, ys)
  | _, _ => (xs, ys)
  end.

Definition segments (resolved : string) : list string :=
  List.filter (fun seg => negb (String.eqb seg "")) (split resolved).

(** [posix.relative(from, to)]: one [..] for each segment of [from] below
    the common directory, then what is left of [to]. *)
Definition relative (cwd from to : string) : string :=
  if String.eqb from to then ""
  else
    let from := resolve cwd from in
    let to := resolve cwd to in
    if String.eqb from to then ""
    else
      let (up, down) := dropCommon (segments from) (segments to) in
      JS.join "/" (List.map (fun _ => "..") up ++ down).

(** Query parameters of [a=b&c=d]. *)
Fixpoint splitAt (sep : ascii) (s : string) : string * option string :=
  match s with
  | EmptyString => ("", None)
  | String c s' =>
      if Ascii.eqb c sep then ("", Some s')
      else let (before, after) := splitAt sep s' in (String c before, after)
  end.

Fixpoint pairs (fuel : nat) (query : string) : list (string * string) :=
  match fuel with
  | O => []
  | S fuel' =>
      let (first, rest) := splitAt "&"%char query in
      let (key, value) := splitAt "="%char first in
      let here :=
        if String.eqb first "" then []
        else [(key, match value with Some v => v | None => "" end)] in
      match rest with
      | Some more => here ++ pairs fuel' more
      | None => here
      end
  end.

(** A path-absolute request target [/path?query]. *)
Definition parseTarget (target : string) : option URL :=
  if JS.startsWith target "/" then
    let (path, query) := splitAt "?"%char target in
    let query := match query with Some q => q | None => "" end in
    Some (mkURL path (pairs (S (String.length query)) query))
  else None.

(** [new URL(input)] fails on a target without a scheme; against a base
    the target's path and query are read. *)
Definition new_URL (input : string) (base : option string) : option URL :=
  match base with
  | None => None
  | Some _ => parseTarget input
  end.

Definition boolToString (b : bool) : string :=
  if b then "true" else "false".

(** Modelled from the spec: [createBundleUrlPath] of [./metroOptions] is
    not among the sources; the bundle path names the entry module and
    carries the forced options (4.4, step 7). *)
Definition createBundleUrlPath (options : ExpoMetroOptions unit) : string :=
  "/" ++ mainModuleName options ++ ".bundle?platform=" ++ platform options
    ++ "&dom=" ++ boolToString (isDOM options)
    ++ "&lazy=" ++ boolToString (lazy options)
    ++ "&bytecode=" ++ boolToString (bytecode options)
    ++ "&engine=" ++ engine options.

Fixpoint dropChars (n : nat) (s : string) : string :=
  match n, s with
  | S n', String _ s' => dropChars n' s'
  | _, _ => s
  end.

Definition host (cwd : string) : Host :=
  Build_Host
    (fun path => "file://" ++ resolve cwd path)       (* pathToFileURL *)
    basename
    dirname
    join
    (relative cwd)
    (fun code => Some [mkNode (OtherNode code) []])   (* template_ast *)
    new_URL
    (fun input base => base ++ input)                 (* URL_toString *)
    (dropChars 7)                                     (* fileURLToFilePath *)
    unit
    createBundleUrlPath.

End Posix.


(** ** Sample inputs *)

Module Sample.

Definition host : Host := Posix.host "/".

Definition widget : string := "/project/src/Widget.js".

Definition defaultExport : Node := mkNode ExportDefaultDeclaration [].
Definition namedExport : Node := mkNode ExportNamedDeclaration [].

(** A component file: the directive and a single default export. *)
Definition component : ProgramState :=
  mkProgramState ["use dom"] [defaultExport] (Some widget) (MetadataObject ∅).

(** The same module, compiled without a filename in the state. *)
Definition unnamedComponent : ProgramState :=
  mkProgramState ["use dom"] [defaultExport] None (MetadataObject ∅).

(** A module without the directive, compiled without a filename. *)
Definition unnamedPlain : ProgramState :=
  mkProgramState [] [] None (MetadataObject ∅).

(** What the production build for ios makes of [component]. *)
Definition compiled : ProgramState :=
  mkProgramState []
    [mkNode
       (OtherNode
          (JS.join JS.newline
             [proxyImports;
              "const source = { uri: "
                ++ quoted "www.bundle/090443041a8531671b5654e7ee62c9a014595e47.html"
                ++ " };";
              proxyExport])) []]
    (Some widget)
    (MetadataObject
       {["expoDomComponentReference" := MString "file:///project/src/Widget.js"]}).

(** The component with more in it: another directive and statements
    around the default export, which has a declaration below it. *)
Definition largerComponent : ProgramState :=
  mkProgramState ["use strict"; "use dom"]
    [mkNode (OtherNode "ImportDeclaration") [];
     mkNode ExportDefaultDeclaration
       [mkNode (OtherNode "FunctionDeclaration") []];
     mkNode (OtherNode "ExportAllDeclaration") []]
    (Some widget) (MetadataObject ∅).

(** A module without the directive. *)
Definition plain : ProgramState :=
  mkProgramState ["use strict"] [namedExport] (Some "/project/src/util.js")
    (MetadataObject ∅).

Definition request : ServerRequest :=
  mkServerRequest
    (Some "/_expo/@dom/Widget.js?file=file:///project/src/Widget.js").

Definition requestUrl : URL :=
  mkURL "/_expo/@dom/Widget.js" [("file", "file:///project/src/Widget.js")].

(** A response nothing has touched, and a server that has done nothing. *)
Definition response : ServerResponse := mkServerResponse 200 None ∅ None false.
Definition world : World := mkWorld ∅ ∅ false [].

(** The request of the scenario: no extra path after the prefix. *)
Definition firstRequest : ServerRequest :=
  mkServerRequest (Some "/_expo/@dom?file=file:///project/src/Widget.js").

Definition entryPath : string :=
  "/project/.expo/@dom/cbb6f3ba81bbe1bd0ab0d215d26b5dc0340ff6fb.js".

Definition entrySource : string :=
  "
// Entry file for the web-side of a DOM Component.
import { registerDOMComponent } from 'expo/dom/internal';

registerDOMComponent(() => import(" ++ quoted "../../src/Widget.js" ++ "), "
    ++ quoted "../../src/Widget.js" ++ ");
".

Definition config : @Config host :=
  @mkConfig host "/project" "/project" "http://localhost:8081" tt.

End Sample.


(** * Properties *)

(** ** The models against known values *)

(** SHA-1 on the test vectors of FIPS 180. *)
Example sha1_empty :
  Sha1.sha1 "" = "da39a3ee5e6b4b0d3255bfef95601890afd80709".
Proof. vm_compute. reflexivity. Qed.

Example sha1_abc :
  Sha1.sha1 "abc" = "a9993e364706816aba3e25717850c26c9cd0d89d".
Proof. vm_compute. reflexivity. Qed.

Example sha1_two_blocks :
  Sha1.sha1 "abcdbcdecdefdefgefghfghighijhijkijkljklmklmnlmnomnopnopq"
  = "84983e441c3bd26ebaae4aa1f95129e5e54670f1".
Proof. vm_compute. reflexivity. Qed.

(** [path] on POSIX, on values Node gives. *)
Example posix_basename :
  Posix.basename "file:///project/src/Widget.js" = "Widget.js"
  /\ Posix.basename "/a/b/c.js///" = "c.js"
  /\ Posix.basename "///" = ""
  /\ Posix.basename "Widget.js" = "Widget.js".
Proof. repeat split; reflexivity. Qed.

Example posix_dirname :
  Posix.dirname "/project/.expo/@dom/abc.js" = "/project/.expo/@dom"
  /\ Posix.dirname "/a//b" = "/a/"
  /\ Posix.dirname "/a" = "/"
  /\ Posix.dirname "a" = "."
  /\ Posix.dirname "" = ".".
Proof. repeat split; reflexivity. Qed.

Example posix_join :
  Posix.join ["/project"; ".expo/@dom"; "abc.js"] = "/project/.expo/@dom/abc.js"
  /\ Posix.join ["/project/"; "../x/./y//"; ""] = "/x/y/"
  /\ Posix.join [""; ""] = "."
  /\ Posix.join ["a"; "../.."] = "..".
Proof. repeat split; reflexivity. Qed.

Example posix_relative :
  Posix.relative "/" "/project/.expo/@dom" "/project/src/Widget.js"
  = "../../src/Widget.js"
  /\ Posix.relative "/" "/project/.expo/@dom" "/project/.expo/@dom/x.js" = "x.js"
  /\ Posix.relative "/" "/project" "/project/.expo/@dom/x.js" = ".expo/@dom/x.js"
  /\ Posix.relative "/" "/a/b" "/a/b" = ""
  /\ Posix.relative "/" "/a/b" "/a/bc" = "../bc".
Proof. repeat split; reflexivity. Qed.

(** [JSON.stringify] on strings. *)
Example JSON_stringify_escapes :
  JS.JSON_stringify "../../src/Widget.js" = quoted "../../src/Widget.js"
  /\ JS.JSON_stringify ("a" ++ JS.dquote ++ "b\c" ++ JS.newline)
     = quoted ("a\" ++ JS.dquote ++ "b\\c\n").
Proof. repeat split; reflexivity. Qed.

(** ** Strings *)

Lemma append_assoc (a b c : string) : (a ++ b) ++ c = a ++ (b ++ c).
Proof. induction a as [|x a IH]; simpl; [reflexivity | now rewrite IH]. Qed.

Lemma append_empty_r (a : string) : a ++ "" = a.
Proof. induction a as [|x a IH]; simpl; [reflexivity | now rewrite IH]. Qed.

Lemma startsWith_append (p r : string) : JS.startsWith (p ++ r) p = true.
Proof.
  induction p as [|c p IH]; simpl; [reflexivity |].
  now rewrite Ascii.eqb_refl, IH.
Qed.

Lemma startsWith_spec (s p : string) :
  JS.startsWith s p = true <-> exists r, s = p ++ r.
Proof.
  split.
  - revert s. induction p as [|c p IH]; intros s Hs.
    + exists s. reflexivity.
    + destruct s as [|d s]; simpl in Hs; [discriminate |].
      apply andb_prop in Hs as [Hc Hp].
      apply Ascii.eqb_eq in Hc. subst d.
      destruct (IH s Hp) as [r ->]. exists r. reflexivity.
  - intros [r ->]. apply startsWith_append.
Qed.

Lemma includes_here (s needle : string) :
  JS.startsWith s needle = true -> JS.includes s needle = true.
Proof. intros Hs. destruct s; simpl in *; rewrite Hs; reflexivity. Qed.

Lemma includes_later (c : ascii) (s needle : string) :
  JS.includes s needle = true -> JS.includes (String c s) needle = true.
Proof. intros Hs. simpl. rewrite Hs. apply orb_true_r. Qed.

Lemma includes_append (pre needle post : string) :
  JS.includes (pre ++ needle ++ post) needle = true.
Proof.
  induction pre as [|c pre IH]; simpl append.
  - apply includes_here, startsWith_append.
  - apply includes_later, IH.
Qed.

(** [includes] finds exactly the substrings. *)
Lemma includes_spec (s needle : string) :
  JS.includes s needle = true <-> exists pre post, s = pre ++ needle ++ post.
Proof.
  split.
  - induction s as [|c s IH]; simpl; intros Hs.
    + rewrite orb_false_r in Hs. apply startsWith_spec in Hs as [r Hr].
      exists "", r. exact Hr.
    + apply orb_prop in Hs as [Hs | Hs].
      * apply (startsWith_spec (String c s)) in Hs as [r Hr].
        exists "", r. exact Hr.
      * destruct (IH Hs) as (pre & post & ->).
        exists (String c pre), post. reflexivity.
  - intros (pre & post & ->). apply includes_append.
Qed.

Lemma truthy_Some (s : string) : JS.truthy (Some s) = true <-> s <> "".
Proof.
  unfold JS.truthy. destruct (String.eqb_spec s ""); simpl; split; congruence.
Qed.

Lemma whenTruthy_Some (s : string) (f : string -> string) :
  s <> "" -> JS.whenTruthy (Some s) f = f s.
Proof.
  intros Hs. unfold JS.whenTruthy.
  now rewrite (proj2 (truthy_Some s) Hs).
Qed.

(** ** [JSON.stringify] on strings that need no escape *)

Lemma escapeChar_plain (c : ascii) :
  JS.plainChar c = true -> JS.escapeChar c = String c "".
Proof.
  unfold JS.plainChar, JS.escapeChar. intros Hc.
  apply andb_prop in Hc as [Hc Hge]. apply andb_prop in Hc as [Hq Hb].
  apply negb_true_iff in Hq, Hb. rewrite Hq, Hb.
  apply N.leb_le in Hge.
  repeat match goal with
         | |- context [(?n =? ?k)%N] =>
             destruct (N.eqb_spec n k) as [Heq|_]; [rewrite Heq in Hge; lia |]
         end.
  destruct (N.ltb_spec (N_of_ascii c) 32); [lia | reflexivity].
Qed.

Lemma escape_plain (s : string) : JS.plain s = true -> JS.escape s = s.
Proof.
  induction s as [|c s IH]; simpl; intros Hs; [reflexivity |].
  apply andb_prop in Hs as [Hc Hs].
  now rewrite (escapeChar_plain c Hc), (IH Hs).
Qed.

Lemma JSON_stringify_plain (s : string) :
  JS.plain s = true -> JS.JSON_stringify s = quoted s.
Proof.
  intros Hs. unfold JS.JSON_stringify, quoted. now rewrite escape_plain.
Qed.

Lemma plain_append (a b : string) :
  JS.plain (a ++ b) = JS.plain a && JS.plain b.
Proof.
  induction a as [|c a IH]; simpl; [reflexivity |].
  now rewrite IH, andb_assoc.
Qed.

Lemma hexDigit_plain (n : N) : JS.plainChar (JS.hexDigit n) = true.
Proof.
  destruct n as [|p]; [reflexivity |].
  do 4 (try destruct p as [p|p|]; try reflexivity).
Qed.

Lemma hex_plain (digits : nat) (x : N) : JS.plain (Sha1.hex digits x) = true.
Proof.
  induction digits as [|d IH]; simpl; [reflexivity |].
  now rewrite hexDigit_plain, IH.
Qed.

(** The digest is made of hexadecimal digits: nothing to escape. *)
Lemma sha1_plain (s : string) : JS.plain (Sha1.sha1 s) = true.
Proof.
  unfold Sha1.sha1. cbv zeta.
  now rewrite !plain_append, !hex_plain.
Qed.

Lemma hex_length (digits : nat) (x : N) :
  String.length (Sha1.hex digits x) = digits.
Proof. induction digits as [|d IH]; simpl; [reflexivity | now rewrite IH]. Qed.

Lemma length_append (a b : string) :
  String.length (a ++ b) = String.length a + String.length b.
Proof. induction a as [|c a IH]; simpl; [reflexivity | now rewrite IH]. Qed.

(** The digest has the fixed length of 40 digits. *)
Lemma sha1_length (s : string) : String.length (Sha1.sha1 s) = 40.
Proof.
  unfold Sha1.sha1. cbv zeta. now rewrite !length_append, !hex_length.
Qed.

(** ** The export traversal *)

Lemma Node_deep_ind (P : Node -> Prop) :
  (forall type children, Forall P children -> P (mkNode type children)) ->
  forall n, P n.
Proof.
  intros step. fix IH 1. intros [type children]. apply step.
  induction children as [|c cs IHcs]; constructor; [apply IH | exact IHcs].
Qed.

Lemma traverseNode_children (type : NodeType) (children : list Node)
    (flag : bool) :
  traverseNode (mkNode type children) flag =
    match type with
    | ExportNamedDeclaration => Throw namedExportPresent
    | ExportDefaultDeclaration => traverse children true
    | OtherNode _ => traverse children flag
    end.
Proof.
  destruct type; simpl; [reflexivity | |].
  - generalize true. induction children as [|c cs IH]; intros f; simpl;
      [reflexivity |].
    destruct (traverseNode c f); simpl; [apply IH | reflexivity].
  - generalize flag. induction children as [|c cs IH]; intros f; simpl;
      [reflexivity |].
    destruct (traverseNode c f); simpl; [apply IH | reflexivity].
Qed.

Lemma traverse_from_nodes (nodes : list Node) :
  Forall (fun n => forall flag,
            traverseNode n flag =
              traversed (occursIn isNamedExport n) (occursIn isDefaultExport n)
                        flag) nodes ->
  forall flag,
    traverse nodes flag =
      traversed (occurs isNamedExport nodes) (occurs isDefaultExport nodes) flag.
Proof.
  unfold occurs, traversed.
  induction 1 as [|n ns Hn _ IH]; intros flag; simpl.
  - now rewrite orb_false_r.
  - rewrite Hn. unfold traversed.
    destruct (occursIn isNamedExport n); simpl; [reflexivity |].
    rewrite IH. destruct (existsb (occursIn isNamedExport) ns);
      [reflexivity |].
    now rewrite orb_assoc.
Qed.

Lemma traverseNode_spec (n : Node) (flag : bool) :
  traverseNode n flag =
    traversed (occursIn isNamedExport n) (occursIn isDefaultExport n) flag.
Proof.
  revert flag. induction n as [type children IH] using Node_deep_ind.
  intros flag. rewrite traverseNode_children.
  pose proof (traverse_from_nodes children IH) as Hcs.
  destruct type; simpl; [reflexivity | rewrite Hcs | rewrite Hcs];
    unfold traversed, occurs; destruct (existsb (occursIn isNamedExport) children);
    try reflexivity.
  now rewrite orb_true_r.
Qed.

(** The traversal throws exactly when a named export occurs, and
    otherwise reports whether a default export occurs. *)
Lemma traverse_spec (nodes : list Node) (flag : bool) :
  traverse nodes flag =
    traversed (occurs isNamedExport nodes) (occurs isDefaultExport nodes) flag.
Proof.
  apply traverse_from_nodes, Forall_forall. intros n _ f.
  apply traverseNode_spec.
Qed.

Lemma hasUseDomDirective_In (st : ProgramState) :
  hasUseDomDirective st = true <-> In "use dom" (directives st).
Proof.
  unfold hasUseDomDirective. rewrite existsb_exists. split.
  - intros (d & Hd & Heq). apply String.eqb_eq in Heq. now subst d.
  - intros Hin. exists "use dom". split; [exact Hin | apply String.eqb_refl].
Qed.

(** ** The directive transformer *)

Section TransformerFacts.

Context {H : Host}.
Variables (isProduction : bool) (platform : option string).

Lemma plugin_web (st : ProgramState) :
  platformIs platform "web" = true ->
  expoUseDomDirectivePlugin isProduction platform st = Ok st.
Proof. intros Hweb. unfold expoUseDomDirectivePlugin. now rewrite Hweb. Qed.

Lemma plugin_without_filename (st : ProgramState) :
  platformIs platform "web" = false ->
  JS.truthy (filename st) = false ->
  expoUseDomDirectivePlugin isProduction platform st = Throw missingFilename.
Proof.
  intros Hweb Hname. unfold expoUseDomDirectivePlugin.
  now rewrite Hweb, Hname.
Qed.

Lemma plugin_without_directive (st : ProgramState) :
  JS.truthy (filename st) = true ->
  hasUseDomDirective st = false ->
  expoUseDomDirectivePlugin isProduction platform st = Ok st.
Proof.
  intros Hname Hdir. unfold expoUseDomDirectivePlugin.
  rewrite Hname, Hdir. now destruct (platformIs platform "web").
Qed.

Lemma plugin_on_directive (st : ProgramState) (filePath : string) :
  platformIs platform "web" = false ->
  hasUseDomDirective st = true ->
  filename st = Some filePath ->
  filePath <> "" ->
  expoUseDomDirectivePlugin isProduction platform st =
    rewrite isProduction platform filePath st.
Proof.
  intros Hweb Hdir Hname Hne. unfold expoUseDomDirectivePlugin.
  rewrite Hweb, Hdir, Hname.
  now rewrite (proj2 (truthy_Some filePath) Hne).
Qed.

Lemma rewrite_spec (st : ProgramState) (filePath : string) :
  rewrite isProduction platform filePath st =
    if occurs isNamedExport (body st) then Throw namedExportPresent
    else if negb (occurs isDefaultExport (body st))
    then Throw missingDefaultExport
    else
      let! lines :=
        proxyModule isProduction platform filePath (pathToFileURL filePath) in
      finish filePath st lines.
Proof.
  unfold rewrite. rewrite traverse_spec. unfold traversed.
  destruct (occurs isNamedExport (body st)); simpl; [reflexivity |].
  destruct (occurs isDefaultExport (body st)); reflexivity.
Qed.

Lemma sourceDeclaration_supported (filePath outputKey : string) :
  succeeds (sourceDeclaration isProduction platform filePath outputKey) <->
  isProduction = false \/ platformIs platform "ios" = true
    \/ platformIs platform "android" = true.
Proof.
  unfold sourceDeclaration, succeeds.
  destruct isProduction; [| split; eauto].
  destruct (platformIs platform "ios"); [split; eauto |].
  destruct (platformIs platform "android"); [split; eauto |].
  split; [intros [a Ha]; discriminate | intros [? | [? | ?]]; discriminate].
Qed.

Lemma proxyModule_lines (filePath outputKey : string) (lines : list string) :
  proxyModule isProduction platform filePath outputKey = Ok lines <->
  exists source,
    sourceDeclaration isProduction platform filePath outputKey = Ok source
    /\ lines = [proxyImports; source; proxyExport].
Proof.
  unfold proxyModule.
  destruct (sourceDeclaration isProduction platform filePath outputKey)
    as [source|e]; simpl; split.
  - intros [= <-]. eauto.
  - intros (s & [= <-] & ->). reflexivity.
  - discriminate.
  - intros (s & Hs & _). discriminate.
Qed.

End TransformerFacts.

(** C5, as amended.  The transformer leaves the module, its directives and
    the compile metadata as they are, and raises nothing, when the platform
    is web, or when a filename is known and the directive list does not
    include "use dom". *)
Theorem transformer_leaves_other_modules `{Host} (isProduction : bool)
    (platform : option string) (st : ProgramState) :
  platformIs platform "web" = true
  \/ (JS.truthy (filename st) = true /\ ~ In "use dom" (directives st)) ->
  expoUseDomDirectivePlugin isProduction platform st = Ok st.
Proof.
  intros [Hweb | [Hname Hdir]].
  - now apply plugin_web.
  - apply plugin_without_directive; [exact Hname |].
    destruct (hasUseDomDirective st) eqn:Hd; [| reflexivity].
    apply hasUseDomDirective_In in Hd. contradiction.
Qed.

Lemma transformer_leaves_other_modules_witness :
  (platformIs (Some "ios") "web" = true
   \/ (JS.truthy (filename Sample.plain) = true
       /\ ~ In "use dom" (directives Sample.plain)))
  /\ @expoUseDomDirectivePlugin Sample.host true (Some "ios") Sample.plain
     = Ok Sample.plain.
Proof.
  assert (Hpre : platformIs (Some "ios") "web" = true
                 \/ (JS.truthy (filename Sample.plain) = true
                     /\ ~ In "use dom" (directives Sample.plain))).
  { right. split; [reflexivity |]. simpl. intros [Heq | []]. discriminate. }
  split; [exact Hpre |].
  exact (@transformer_leaves_other_modules Sample.host true (Some "ios")
           Sample.plain Hpre).
Defined.

(** C5, as stated, fails: on a native platform a module without the
    directive raises the missing-filename error when the compile state has
    no filename. *)
Lemma directive_absent_still_raises :
  platformIs (Some "ios") "web" = false
  /\ ~ In "use dom" (directives Sample.unnamedPlain)
  /\ @expoUseDomDirectivePlugin Sample.host false (Some "ios")
       Sample.unnamedPlain
     = Throw (PlainError "[Babel] Expected a filename to be set in the state").
Proof.
  split; [reflexivity |]. split; [intros [] | reflexivity].
Qed.

Lemma plugin_cases `{Host} (isProduction : bool) (platform : option string)
    (st : ProgramState) :
  platformIs platform "web" = false ->
  In "use dom" (directives st) ->
  (JS.truthy (filename st) = false
   /\ expoUseDomDirectivePlugin isProduction platform st = Throw missingFilename)
  \/ (exists filePath,
        filename st = Some filePath /\ filePath <> ""
        /\ expoUseDomDirectivePlugin isProduction platform st =
             rewrite isProduction platform filePath st).
Proof.
  intros Hweb Hdir. apply hasUseDomDirective_In in Hdir.
  destruct (JS.truthy (filename st)) eqn:Hname.
  - right. destruct (filename st) as [filePath|] eqn:Hfile; [| discriminate].
    apply truthy_Some in Hname. exists filePath.
    split; [reflexivity |]. split; [exact Hname |].
    now apply plugin_on_directive.
  - left. split; [reflexivity |]. now apply plugin_without_filename.
Qed.

Lemma finish_succeeds `{Host} (filePath : string) (st st' : ProgramState)
    (lines : list string) :
  finish filePath st lines = Ok st' <->
  exists ast fields,
    template_ast (JS.join JS.newline lines) = Some ast
    /\ metadata st = MetadataObject fields
    /\ st' = mkProgramState [] ast (filename st)
               (MetadataObject
                  (<["expoDomComponentReference" := MString (pathToFileURL filePath)]>
                     fields)).
Proof.
  unfold finish.
  destruct (template_ast (JS.join JS.newline lines)) as [ast|]; split.
  - destruct (metadata st) as [fields|]; simpl; [| discriminate].
    intros [= <-]. exists ast, fields. auto.
  - intros (ast' & fields & [= <-] & -> & ->). reflexivity.
  - discriminate.
  - intros (ast' & fields & Hast & _). discriminate.
Qed.

(** C2, as amended.  For a module with the "use dom" directive compiled
    for a platform other than web: a named export declaration makes the
    compilation fail; so does the absence of a default export declaration;
    and when a default export is there and no named export is, the
    compilation succeeds exactly when a filename is known, the build is a
    development build or a production build for ios or android, the parser
    accepts the proxy text and the compile metadata is an object. *)
Theorem export_shape_decides_compilation `{Host} (isProduction : bool)
    (platform : option string) (st : ProgramState) :
  platformIs platform "web" = false ->
  In "use dom" (directives st) ->
  (occurs isNamedExport (body st) = true ->
   fails (expoUseDomDirectivePlugin isProduction platform st))
  /\ (occurs isDefaultExport (body st) = false ->
      fails (expoUseDomDirectivePlugin isProduction platform st))
  /\ (occurs isDefaultExport (body st) = true ->
      occurs isNamedExport (body st) = false ->
      (succeeds (expoUseDomDirectivePlugin isProduction platform st) <->
       exists filePath fields,
         filename st = Some filePath /\ filePath <> ""
         /\ (isProduction = false \/ platformIs platform "ios" = true
             \/ platformIs platform "android" = true)
         /\ (forall lines,
               proxyModule isProduction platform filePath
                 (pathToFileURL filePath) = Ok lines ->
               template_ast (JS.join JS.newline lines) <> None)
         /\ metadata st = MetadataObject fields)).
Proof.
  intros Hweb Hdir.
  destruct (plugin_cases isProduction platform st Hweb Hdir)
    as [[Hname Hthrow] | (filePath & Hfile & Hne & Hrewrite)].
  - rewrite Hthrow. repeat split; try (intros; eexists; reflexivity).
    + intros [st' Hst']. discriminate.
    + intros (filePath & fields & Hfile & Hne & _).
      rewrite Hfile in Hname. apply truthy_Some in Hne. congruence.
  - rewrite Hrewrite, rewrite_spec. split; [| split].
    + intros ->. eexists; reflexivity.
    + intros ->. destruct (occurs isNamedExport (body st));
        eexists; reflexivity.
    + intros -> ->. simpl. split.
      * intros [st' Hst'].
        destruct (proxyModule isProduction platform filePath
                    (pathToFileURL filePath)) as [lines|e] eqn:Hlines;
          [| discriminate].
        simpl in Hst'. apply finish_succeeds in Hst'
          as (ast & fields & Hast & Hmeta & _).
        exists filePath, fields. repeat split; try assumption.
        -- apply proxyModule_lines in Hlines as (source & Hsource & _).
           eapply sourceDeclaration_supported. eexists; exact Hsource.
        -- intros lines' Hlines'. rewrite Hlines in Hlines'.
           injection Hlines' as <-. congruence.
      * intros (filePath' & fields & Hfile' & _ & Hplatform & Hparse & Hmeta).
        assert (filePath' = filePath) as -> by congruence.
        apply (sourceDeclaration_supported isProduction platform filePath
                 (pathToFileURL filePath)) in Hplatform as [source Hsource].
        assert (Hlines : proxyModule isProduction platform filePath
                           (pathToFileURL filePath)
                         = Ok [proxyImports; source; proxyExport])
          by (apply proxyModule_lines; eauto).
        rewrite Hlines. simpl.
        destruct (template_ast
                    (JS.join JS.newline [proxyImports; source; proxyExport]))
          as [ast|] eqn:Hast; [| now apply Hparse in Hlines].
        eexists. apply finish_succeeds. exists ast, fields. eauto.
Qed.

Lemma export_shape_decides_compilation_witness :
  (platformIs (Some "ios") "web" = false
   /\ In "use dom" (directives Sample.component)
   /\ occurs isDefaultExport (body Sample.component) = true
   /\ occurs isNamedExport (body Sample.component) = false)
  /\ succeeds (@expoUseDomDirectivePlugin Sample.host true (Some "ios")
                 Sample.component).
Proof.
  assert (Hweb : platformIs (Some "ios") "web" = false) by reflexivity.
  assert (Hdir : In "use dom" (directives Sample.component))
    by (simpl; auto).
  assert (Hdefault : occurs isDefaultExport (body Sample.component) = true)
    by reflexivity.
  assert (Hnamed : occurs isNamedExport (body Sample.component) = false)
    by reflexivity.
  split; [auto |].
  apply (proj2 (proj2 (@export_shape_decides_compilation Sample.host true
                         (Some "ios") Sample.component Hweb Hdir))
           Hdefault Hnamed).
  exists Sample.widget, ∅. split; [reflexivity |].
  split; [discriminate |]. split; [auto |].
  split; [| reflexivity]. intros lines Hlines. discriminate.
Defined.

(** C2, as stated, fails: a module with the directive and a single default
    export does not compile when the compile state has no filename. *)
Lemma default_export_alone_can_fail :
  platformIs (Some "ios") "web" = false
  /\ In "use dom" (directives Sample.unnamedComponent)
  /\ body Sample.unnamedComponent = [mkNode ExportDefaultDeclaration []]
  /\ occurs isNamedExport (body Sample.unnamedComponent) = false
  /\ @expoUseDomDirectivePlugin Sample.host false (Some "ios")
       Sample.unnamedComponent
     = Throw (PlainError "[Babel] Expected a filename to be set in the state")
  /\ ~ succeeds (@expoUseDomDirectivePlugin Sample.host false (Some "ios")
                   Sample.unnamedComponent).
Proof.
  repeat split; try reflexivity; [simpl; auto |].
  intros [st' Hst']. discriminate.
Qed.

(** C9.  When the transformer rewrites a module that has the directive, it
    sets the field [expoDomComponentReference] of the compile metadata to
    the canonical file URL of the module, a string, and every other field
    of the metadata is what it was. *)
Theorem metadata_records_output_key `{Host} (isProduction : bool)
    (platform : option string) (st st' : ProgramState) :
  platformIs platform "web" = false ->
  In "use dom" (directives st) ->
  expoUseDomDirectivePlugin isProduction platform st = Ok st' ->
  exists filePath fields fields',
    filename st = Some filePath
    /\ metadata st = MetadataObject fields
    /\ metadata st' = MetadataObject fields'
    /\ fields' !! "expoDomComponentReference"
       = Some (MString (pathToFileURL filePath))
    /\ forall key,
         key <> "expoDomComponentReference" -> fields' !! key = fields !! key.
Proof.
  intros Hweb Hdir Hok.
  destruct (plugin_cases isProduction platform st Hweb Hdir)
    as [[_ Hthrow] | (filePath & Hfile & _ & Hrewrite)]; [congruence |].
  rewrite Hrewrite, rewrite_spec in Hok.
  destruct (occurs isNamedExport (body st)); [discriminate |].
  destruct (occurs isDefaultExport (body st)); [| discriminate].
  simpl in Hok.
  destruct (proxyModule isProduction platform filePath (pathToFileURL filePath))
    as [lines|e]; [| discriminate].
  simpl in Hok. apply finish_succeeds in Hok as (ast & fields & _ & Hmeta & ->).
  exists filePath, fields,
    (<["expoDomComponentReference" := MString (pathToFileURL filePath)]> fields).
  split; [exact Hfile |]. split; [exact Hmeta |]. split; [reflexivity |].
  split; [apply lookup_insert_eq |].
  intros key Hkey. now apply lookup_insert_ne.
Qed.

Lemma metadata_records_output_key_witness :
  (platformIs (Some "ios") "web" = false
   /\ In "use dom" (directives Sample.component)
   /\ @expoUseDomDirectivePlugin Sample.host true (Some "ios") Sample.component
      = Ok Sample.compiled)
  /\ exists filePath fields fields',
       filename Sample.component = Some filePath
       /\ metadata Sample.component = MetadataObject fields
       /\ metadata Sample.compiled = MetadataObject fields'
       /\ fields' !! "expoDomComponentReference"
          = Some (MString (@pathToFileURL Sample.host filePath))
       /\ forall key,
            key <> "expoDomComponentReference" ->
            fields' !! key = fields !! key.
Proof.
  assert (Hweb : platformIs (Some "ios") "web" = false) by reflexivity.
  assert (Hdir : In "use dom" (directives Sample.component))
    by (simpl; auto).
  assert (Hok : @expoUseDomDirectivePlugin Sample.host true (Some "ios")
                  Sample.component = Ok Sample.compiled)
    by (vm_compute; reflexivity).
  split; [auto |].
  exact (@metadata_records_output_key Sample.host true (Some "ios")
           Sample.component Sample.compiled Hweb Hdir Hok).
Defined.

(** ** String literals read back *)

Lemma readChars_escapeChar (c : ascii) (tail : string) :
  Literal.readChars (JS.escapeChar c ++ tail)
  = Literal.prepend c (Literal.readChars tail).
Proof.
  destruct c as [[] [] [] [] [] [] [] []]; reflexivity.
Qed.

Lemma readChars_escape (s tail : string) :
  Literal.readChars (JS.escape s ++ JS.dquote ++ tail) = Some (s, tail).
Proof.
  induction s as [|c s IH]; [reflexivity |].
  cbn [JS.escape]. rewrite append_assoc, readChars_escapeChar, IH.
  reflexivity.
Qed.

(** What [JSON.stringify] writes for a string is read back as that
    string, whatever follows. *)
Lemma readLiteral_JSON_stringify (s tail : string) :
  Literal.readLiteral (JS.JSON_stringify s ++ tail) = Some (s, tail).
Proof.
  unfold JS.JSON_stringify. rewrite !append_assoc.
  change (JS.dquote ++ JS.escape s ++ JS.dquote ++ tail)
    with (String (ascii_of_nat 34) (JS.escape s ++ JS.dquote ++ tail)).
  apply readChars_escape.
Qed.


(** ** The parts of a reference *)





(** ** The [source] declaration, branch by branch *)

Section SourceDeclaration.

Context {H : Host}.
Variables (platform : option string) (filePath outputKey : string).

Lemma hashed_name_plain (before after : string) :
  JS.plain before = true -> JS.plain after = true ->
  JS.plain (before ++ Sha1.sha1 outputKey ++ after) = true.
Proof.
  intros Hb Ha. now rewrite !plain_append, sha1_plain, Hb, Ha.
Qed.

Lemma sourceDeclaration_ios :
  platformIs platform "ios" = true ->
  sourceDeclaration true platform filePath outputKey =
    Ok ("const source = { uri: "
          ++ quoted ("www.bundle/" ++ Sha1.sha1 outputKey ++ ".html") ++ " };").
Proof.
  intros Hios. unfold sourceDeclaration. rewrite Hios. cbv zeta.
  now rewrite JSON_stringify_plain by (now apply hashed_name_plain).
Qed.

Lemma sourceDeclaration_android :
  platformIs platform "ios" = false ->
  platformIs platform "android" = true ->
  sourceDeclaration true platform filePath outputKey =
    Ok ("const source = { uri: " ++ quoted "file:///android_asset" ++ " + "
          ++ quoted ("www/" ++ Sha1.sha1 outputKey ++ ".html") ++ " };").
Proof.
  intros Hios Handroid. unfold sourceDeclaration.
  rewrite Hios, Handroid. cbv zeta.
  rewrite JSON_stringify_plain by (now apply hashed_name_plain).
  unfold quoted. now rewrite !append_assoc.
Qed.


Lemma sourceDeclaration_development :
  sourceDeclaration false platform filePath outputKey =
    Ok ("const source = { uri: new URL("
          ++ quoted ("/_expo/@dom/" ++ basename filePath ++ "?file=") ++ " + "
          ++ JS.JSON_stringify outputKey ++ ", require("
          ++ quoted "react-native/Libraries/Core/Devtools/getDevServer"
          ++ ")().url).toString() };").
Proof.
  unfold sourceDeclaration, quoted. now rewrite !append_assoc.
Qed.

End SourceDeclaration.








(** ** The HTML shell *)

(** C8.  The shell is a function of its two arguments.  Without arguments
    it holds the root container and neither a script tag nor a title
    element; with src "x.js" and title "T" it holds <title>T</title> and a
    script tag whose src attribute is "x.js". *)
Theorem shell_builder_shape :
  JS.includes (getDomComponentHtml None None)
    ("<div id=" ++ quoted "root" ++ "></div>") = true
  /\ JS.includes (getDomComponentHtml None None) "<script" = false
  /\ JS.includes (getDomComponentHtml None None) "<title" = false
  /\ JS.includes (getDomComponentHtml (Some "x.js") (Some "T"))
       "<title>T</title>" = true
  /\ JS.includes (getDomComponentHtml (Some "x.js") (Some "T"))
       ("<script crossorigin src=" ++ quoted "x.js" ++ "></script>") = true.
Proof. vm_compute. auto. Qed.

Lemma shell_holds_title (src : option string) (title : string) :
  title <> "" ->
  JS.includes (getDomComponentHtml src (Some title))
    ("<title>" ++ title ++ "</title>") = true.
Proof.
  intros Htitle. unfold getDomComponentHtml.
  rewrite (whenTruthy_Some title) by exact Htitle.
  apply includes_spec. exists htmlHead. eexists.
  now rewrite !append_assoc.
Qed.

Lemma shell_holds_script (src : string) (title : option string) :
  src <> "" ->
  JS.includes (getDomComponentHtml (Some src) title)
    ("<script crossorigin src=" ++ quoted src ++ "></script>") = true.
Proof.
  intros Hsrc. unfold getDomComponentHtml, quoted.
  rewrite (whenTruthy_Some src) by exact Hsrc.
  apply includes_spec.
  exists (htmlHead
            ++ JS.whenTruthy title (fun t => "<title>" ++ t ++ "</title>")
            ++ htmlMiddle), htmlTail.
  now rewrite !append_assoc.
Qed.

(** ** Paths on POSIX: the entry below a normalised project root *)

Section PosixPaths.

Import Posix.

Lemma split_nonempty (s : string) : split s <> [].
Proof.
  induction s as [|c s IH]; simpl; [discriminate |].
  destruct (Ascii.eqb c slash); [discriminate |].
  destruct (split s); discriminate.
Qed.

(** [(a + '/' + b).split('/')] is [a.split('/')] followed by
    [b.split('/')]. *)
Lemma split_append (a b : string) :
  split (a ++ String "/" b) = (split a ++ split b)%list.
Proof.
  induction a as [|c a IH]; simpl; [reflexivity |].
  destruct (Ascii.eqb c slash); rewrite IH; [reflexivity |].
  pose proof (split_nonempty a) as Ha.
  destruct (split a); [contradiction | reflexivity].
Qed.

Lemma split_slashFree (s : string) : slashFree s = true -> split s = [s].
Proof.
  induction s as [|c s IH]; simpl; [reflexivity |].
  intros Hs. apply andb_prop in Hs as [Hc Hs].
  apply negb_true_iff in Hc. now rewrite Hc, (IH Hs).
Qed.

Lemma properSegment_inv (seg : string) :
  properSegment seg = true ->
  slashFree seg = true /\ seg <> "" /\ seg <> "." /\ seg <> "..".
Proof.
  unfold properSegment. intros Hseg.
  apply andb_prop in Hseg as [Hseg Hdd]. apply andb_prop in Hseg as [Hseg Hd].
  apply andb_prop in Hseg as [Hfree He].
  apply negb_true_iff in Hdd, Hd, He.
  now rewrite String.eqb_neq in Hdd, Hd, He.
Qed.

Lemma split_join (segs : list string) :
  segs <> [] ->
  Forall (fun seg => properSegment seg = true) segs ->
  split (JS.join "/" segs) = segs.
Proof.
  intros Hne Hsegs. induction Hsegs as [|seg rest Hseg Hrest IH];
    [contradiction |].
  apply properSegment_inv in Hseg as [Hfree _].
  destruct rest as [|next rest'].
  - simpl. now apply split_slashFree.
  - change (JS.join "/" (seg :: next :: rest'))
      with (seg ++ String "/" (JS.join "/" (next :: rest'))).
    rewrite split_append, split_slashFree by exact Hfree.
    simpl. f_equal. now apply IH.
Qed.

(** Empty segments are dropped and proper ones are kept in order. *)
Lemma normalizeSegments_kept (allowAboveRoot : bool)
    (segs kept : list string) :
  Forall blankOrProper segs ->
  normalizeSegments allowAboveRoot segs kept
  = (List.rev (List.filter nonBlank segs) ++ kept)%list.
Proof.
  intros Hsegs. revert kept.
  induction Hsegs as [|seg rest Hseg _ IH]; intros kept; [reflexivity |].
  destruct Hseg as [-> | Hseg].
  - simpl. apply IH.
  - apply properSegment_inv in Hseg as (_ & He & Hd & Hdd).
    apply String.eqb_neq in He, Hd, Hdd.
    simpl. unfold nonBlank. rewrite He, Hd, Hdd. simpl. rewrite IH.
    now rewrite <- app_assoc.
Qed.

Lemma filter_proper (segs : list string) :
  Forall (fun seg => properSegment seg = true) segs ->
  List.filter nonBlank segs = segs.
Proof.
  induction 1 as [|seg rest Hseg _ IH]; [reflexivity |].
  apply properSegment_inv in Hseg as (_ & He & _).
  apply String.eqb_neq in He. simpl. unfold nonBlank at 1.
  now rewrite He, IH.
Qed.

Lemma split_root (segs : list string) :
  Forall (fun seg => properSegment seg = true) segs ->
  Forall blankOrProper (split (JS.join "/" segs))
  /\ List.filter nonBlank (split (JS.join "/" segs)) = segs.
Proof.
  intros Hsegs. destruct segs as [|seg rest].
  - split; [repeat constructor | reflexivity].
  - rewrite split_join by (discriminate || assumption).
    split; [| now apply filter_proper].
    eapply Forall_impl; [exact Hsegs |]. intros s Hs. now right.
Qed.

Lemma reverseOnto_append (a b acc : string) :
  reverseOnto (a ++ b) acc = reverseOnto b (reverseOnto a acc).
Proof.
  revert acc. induction a as [|c a IH]; intros acc; simpl;
    [reflexivity | apply IH].
Qed.

Lemma reverseOnto_slashFree (name acc : string) :
  name <> "" -> slashFree name = true ->
  JS.startsWith (reverseOnto name acc) "/" = false.
Proof.
  revert acc. induction name as [|c name IH]; intros acc Hne Hname;
    [contradiction |].
  simpl in Hname. apply andb_prop in Hname as [Hc Hname].
  destruct name as [|d name'].
  - apply negb_true_iff in Hc. unfold slash in Hc.
    change (JS.startsWith (reverseOnto (String c "") acc) "/")
      with (Ascii.eqb "/" c && JS.startsWith acc "").
    now rewrite Ascii.eqb_sym, Hc.
  - apply (IH (String c acc)); [discriminate | exact Hname].
Qed.

(** A path that ends with a proper segment has no trailing separator. *)
Lemma endsWithSlash_segment (front name : string) :
  properSegment name = true -> endsWithSlash (front ++ name) = false.
Proof.
  intros Hname. apply properSegment_inv in Hname as (Hfree & Hne & _).
  unfold endsWithSlash, reverse.
  rewrite reverseOnto_append. now apply reverseOnto_slashFree.
Qed.

Lemma join_cons_nonempty (seg : string) (rest : list string) :
  seg <> "" -> JS.join "/" (seg :: rest) <> "".
Proof.
  intros Hseg. destruct seg as [|c seg]; [contradiction |].
  destruct rest; discriminate.
Qed.

(** Below a project root made of proper segments, the generated entry is
    the root's segments followed by [.expo], [@dom] and the file name. *)
Lemma join_entry_below_root (segs : list string) (name : string) :
  Forall (fun seg => properSegment seg = true) segs ->
  properSegment name = true ->
  join ["/" ++ JS.join "/" segs; ".expo/@dom"; name]
  = "/" ++ JS.join "/" (segs ++ [".expo"; "@dom"; name]).
Proof.
  intros Hsegs Hname.
  pose proof (properSegment_inv name Hname) as (Hfree & Hne & _).
  set (rest := JS.join "/" segs ++ String "/" (".expo/@dom" ++ String "/" name)).
  assert (Hjoin : join ["/" ++ JS.join "/" segs; ".expo/@dom"; name]
                  = normalize (String "/" rest)).
  { unfold join. simpl List.filter.
    apply String.eqb_neq in Hne. rewrite Hne. reflexivity. }
  assert (Hend : endsWithSlash (String "/" rest) = false).
  { replace (String "/" rest)
      with (String "/" (JS.join "/" segs ++ String "/" ".expo/@dom/") ++ name).
    - now apply endsWithSlash_segment.
    - unfold rest. simpl. now rewrite !append_assoc. }
  assert (Hstring : normalizeString (String "/" rest) false
                    = JS.join "/" (segs ++ [".expo"; "@dom"; name])).
  { unfold normalizeString.
    assert (Hsplit : split (String "/" rest)
                     = ("" :: split (JS.join "/" segs)
                           ++ [".expo"; "@dom"; name])%list).
    { change (split (String "/" rest)) with ("" :: split rest).
      unfold rest. rewrite split_append.
      change (".expo/@dom" ++ String "/" name)
        with (".expo" ++ String "/" ("@dom" ++ String "/" name)).
      rewrite !split_append, (split_slashFree name) by exact Hfree.
      reflexivity. }
    destruct (split_root segs Hsegs) as [Hblank Hfilter].
    rewrite Hsplit, normalizeSegments_kept.
    - simpl List.filter. rewrite List.filter_app, Hfilter. simpl List.filter.
      unfold nonBlank at 1. apply String.eqb_neq in Hne. rewrite Hne.
      simpl. now rewrite app_nil_r, rev_involutive.
    - constructor; [now left |]. apply Forall_app. split; [exact Hblank |].
      constructor; [right; reflexivity |].
      constructor; [right; reflexivity |].
      constructor; [right; exact Hname | constructor]. }
  rewrite Hjoin. unfold normalize.
  change (String.eqb (String "/" rest) "") with false.
  change (JS.startsWith (String "/" rest) "/") with true.
  cbv iota. rewrite Hend. simpl negb. rewrite Hstring.
  destruct (String.eqb_spec (JS.join "/" (segs ++ [".expo"; "@dom"; name])) "")
    as [He|_]; [| reflexivity].
  destruct segs as [|seg segs']; [discriminate |].
  apply Forall_cons_iff in Hsegs as [Hseg _].
  apply properSegment_inv in Hseg as (_ & Hseg & _).
  now apply (join_cons_nonempty seg (segs' ++ [".expo"; "@dom"; name])) in He.
Qed.

Lemma hexDigit_slashFree (n : N) : Ascii.eqb (JS.hexDigit n) slash = false.
Proof.
  destruct n as [|p]; [reflexivity |].
  do 4 (try destruct p as [p|p|]; try reflexivity).
Qed.

Lemma hex_slashFree (digits : nat) (x : N) :
  slashFree (Sha1.hex digits x) = true.
Proof.
  induction digits as [|d IH]; simpl; [reflexivity |].
  now rewrite hexDigit_slashFree, IH.
Qed.

Lemma slashFree_append (a b : string) :
  slashFree (a ++ b) = slashFree a && slashFree b.
Proof.
  induction a as [|c a IH]; simpl; [reflexivity |].
  now rewrite IH, andb_assoc.
Qed.

(** The name of the generated entry is a proper segment. *)
Lemma entry_name_proper (s : string) :
  properSegment (Sha1.sha1 s ++ ".js") = true.
Proof.
  assert (Hlength : String.length (Sha1.sha1 s ++ ".js") = 43)
    by now rewrite length_append, sha1_length.
  assert (Hfree : slashFree (Sha1.sha1 s ++ ".js") = true).
  { unfold Sha1.sha1. cbv zeta.
    now rewrite !slashFree_append, !hex_slashFree. }
  unfold properSegment. rewrite Hfree.
  destruct (String.eqb_spec (Sha1.sha1 s ++ ".js") "") as [He|_];
    [rewrite He in Hlength; discriminate |].
  destruct (String.eqb_spec (Sha1.sha1 s ++ ".js") ".") as [He|_];
    [rewrite He in Hlength; discriminate |].
  destruct (String.eqb_spec (Sha1.sha1 s ++ ".js") "..") as [He|_];
    [rewrite He in Hlength; discriminate | reflexivity].
Qed.

(** X16.  On POSIX, under a project root /s1/.../sn of proper segments
    (not empty, without a separator, neither [.] nor [..]), the generated
    entry is /s1/.../sn/.expo/@dom/<hash>.js: [path.join] has nothing to
    normalise away. *)
Lemma posix_entry_location (cwd : string) (cfg : @Config (host cwd))
    (segs : list string) (file : string) :
  projectRoot cfg = "/" ++ JS.join "/" segs ->
  Forall (fun seg => properSegment seg = true) segs ->
  @generatedEntryPath (host cwd) cfg file
  = "/" ++ JS.join "/"
             (segs ++ [".expo"; "@dom";
                       Sha1.sha1 (@entryFilePath (host cwd) file) ++ ".js"]).
Proof.
  intros Hroot Hsegs. unfold generatedEntryPath. cbv zeta. rewrite Hroot.
  apply (join_entry_below_root segs _ Hsegs), entry_name_proper.
Qed.

Lemma reverseOnto_length (s acc : string) :
  String.length (reverseOnto s acc) = String.length s + String.length acc.
Proof.
  revert acc. induction s as [|c s IH]; intros acc; simpl; [reflexivity |].
  rewrite IH. simpl. lia.
Qed.

Lemma reverseOnto_slashOnly (s acc : string) :
  slashOnly (reverseOnto s acc) = slashOnly s && slashOnly acc.
Proof.
  revert acc. induction s as [|c s IH]; intros acc; simpl; [reflexivity |].
  rewrite IH. simpl. now destruct (Ascii.eqb c slash), (slashOnly s).
Qed.

Lemma untilSlash_dropSlashes (s : string) :
  slashOnly s = false -> untilSlash (dropSlashes s) <> "".
Proof.
  induction s as [|c s IH]; simpl; [discriminate |].
  destruct (Ascii.eqb c slash) eqn:Hc; simpl; [exact IH |].
  intros _. rewrite Hc. discriminate.
Qed.

(** [basename] is empty only for a path made of separators. *)
Lemma basename_nonempty (path : string) :
  slashOnly path = false -> basename path <> "".
Proof.
  intros Hpath. unfold basename, reverse. intros Hempty.
  apply (f_equal String.length) in Hempty.
  rewrite reverseOnto_length in Hempty. simpl in Hempty.
  apply (untilSlash_dropSlashes (reverseOnto path "")).
  - now rewrite reverseOnto_slashOnly, Hpath.
  - destruct (untilSlash (dropSlashes (reverseOnto path "")));
      [reflexivity | simpl in Hempty; lia].
Qed.

Lemma file_url_not_slashOnly (file : string) :
  JS.startsWith file "file://" = true -> slashOnly file = false.
Proof.
  intros Hfile. apply startsWith_spec in Hfile as [rest ->]. reflexivity.
Qed.

End PosixPaths.

(** ** The virtual entry generator *)

Section DevServerFacts.

Context {H : Host}.
Variable cfg : Config.

Lemma generator_run (file : string) (w : World) :
  getDomComponentVirtualEntryModuleAsync cfg file w =
    (generatedEntryPath cfg file,
     mkWorld (<[generatedEntryPath cfg file := entryText cfg file]> (files w))
       ({[dirname (generatedEntryPath cfg file)]} ∪ dirs w)
       (warned w)
       (trace w
          ++ [Mkdir (dirname (generatedEntryPath cfg file));
              Stat (generatedEntryPath cfg file);
              WriteFile (generatedEntryPath cfg file) (entryText cfg file)]
          ++ (if bool_decide (is_Some (files w !! generatedEntryPath cfg file))
              then [] else [SetTimeout 1000]))).
Proof.
  unfold getDomComponentVirtualEntryModuleAsync, andThen, mkdirSync,
    fileExistsAsync, writeFile, sleep, ret, emit, entryText.
  simpl.
  destruct (bool_decide (is_Some (files w !! generatedEntryPath cfg file)));
    simpl; now rewrite <- !app_assoc.
Qed.

End DevServerFacts.

(** For every file reference the generator returns the path
    [path.join(projectRoot, '.expo/@dom', hash + '.js')], where [hash] is
    the digest of the file's path, and leaves there a module that imports
    the file by a specifier made from its path relative to the directory
    of the generated file: that relative path when it begins with a dot,
    and the relative path prefixed with "./" otherwise.  The text hands
    [registerDOMComponent] a thunk importing the specifier and the
    specifier as a string literal. *)
Lemma generated_entry `{Host} (cfg : Config) (file : string) (w : World) :
  let result := getDomComponentVirtualEntryModuleAsync cfg file w in
  let source :=
    if JS.startsWith file "file://" then fileURLToFilePath file else file in
  let entry := fst result in
  let relative := path_relative (dirname entry) source in
  let specifier :=
    if JS.startsWith relative "." then relative else "./" ++ relative in
  entry = path_join [projectRoot cfg; ".expo/@dom"; Sha1.sha1 source ++ ".js"]
  /\ files (snd result) !! entry =
       Some ("
// Entry file for the web-side of a DOM Component.
import { registerDOMComponent } from 'expo/dom/internal';

registerDOMComponent(() => import(" ++ JS.JSON_stringify specifier ++ "), "
               ++ JS.JSON_stringify specifier ++ ");
").
Proof.
  cbv zeta. rewrite generator_run. cbn [fst snd files].
  set (entry := generatedEntryPath cfg file).
  split; [reflexivity |].
  rewrite lookup_insert_eq. f_equal.
  unfold entryText, getDomComponentVirtualProxy, relativeImport, entryFilePath.
  cbn [contents]. fold entry.
  now destruct (JS.startsWith
                  (path_relative (dirname entry)
                     (if JS.startsWith file "file://"
                      then fileURLToFilePath file else file)) ".").
Qed.

(** C6.  The claim fails for a file beside the generated entries whose
    name begins with a dot.  For /project/.expo/@dom/.hidden.js under the
    project root /project, the generated file is
    /project/.expo/@dom/<sha1 of the path>.js, the path of the file
    relative to its directory is .hidden.js, and the module written there
    imports ".hidden.js": the relative path begins with a dot, so "./" is
    not put before it, and the specifier begins with neither "./" nor
    "../", which makes it a bare specifier. *)
Theorem hidden_file_imported_bare :
  let file := "file:///project/.expo/@dom/.hidden.js" in
  let result :=
    @getDomComponentVirtualEntryModuleAsync Sample.host Sample.config file
      Sample.world in
  @fileURLToFilePath Sample.host file = "/project/.expo/@dom/.hidden.js"
  /\ fst result
     = "/project/.expo/@dom/76f0f62930c7e73c85021925918da6cbe301c9a7.js"
  /\ @path_relative Sample.host (@dirname Sample.host (fst result))
       "/project/.expo/@dom/.hidden.js"
     = ".hidden.js"
  /\ files (snd result) !! fst result =
       Some ("
// Entry file for the web-side of a DOM Component.
import { registerDOMComponent } from 'expo/dom/internal';

registerDOMComponent(() => import(" ++ quoted ".hidden.js" ++ "), "
               ++ quoted ".hidden.js" ++ ");
")
  /\ JS.startsWith ".hidden.js" "./" = false
  /\ JS.startsWith ".hidden.js" "../" = false.
Proof.
  cbv zeta.
  destruct (@generated_entry Sample.host Sample.config
              "file:///project/.expo/@dom/.hidden.js" Sample.world)
    as [Hentry Htext].
  cbv zeta in Hentry, Htext.
  split; [vm_compute; reflexivity |].
  split; [vm_compute; reflexivity |].
  split; [vm_compute; reflexivity |].
  split; [| split; reflexivity].
  rewrite Htext. vm_compute. reflexivity.
Qed.

(** C7.  Every call writes the rendered text at the generated path,
    whatever was there, and the call waits for 1000 ms after the write,
    as its last step, exactly when no file was at that path when the call
    looked; when there was one, the write is the last step. *)
Theorem entry_written_then_settles `{Host} (cfg : Config) (file : string)
    (w : World) :
  let result := getDomComponentVirtualEntryModuleAsync cfg file w in
  let entry := generatedEntryPath cfg file in
  let text := contents (getDomComponentVirtualProxy entry (entryFilePath file)) in
  fst result = entry
  /\ files (snd result) = <[entry := text]> (files w)
  /\ exists steps,
       trace (snd result) = (trace w ++ steps)%list
       /\ (files w !! entry = None ->
           steps = [Mkdir (dirname entry); Stat entry; WriteFile entry text;
                    SetTimeout 1000])
       /\ (files w !! entry <> None ->
           steps = [Mkdir (dirname entry); Stat entry; WriteFile entry text])
       /\ (In (SetTimeout 1000) steps <-> files w !! entry = None).
Proof.
  cbv zeta. rewrite generator_run. cbn [fst snd files trace].
  fold (entryText cfg file).
  set (entry := generatedEntryPath cfg file).
  set (text := entryText cfg file).
  split; [reflexivity |]. split; [reflexivity |].
  eexists. split; [reflexivity |].
  destruct (files w !! entry) as [old|] eqn:Hold.
  - rewrite bool_decide_eq_true_2 by eauto. simpl.
    repeat split; try congruence.
    intros [Heq | [Heq | [Heq | []]]]; discriminate.
  - rewrite bool_decide_eq_false_2 by (intros [? ?]; discriminate). simpl.
    repeat split; try congruence. auto.
Qed.

(** ** The request middleware *)

#[local] Arguments JS.startsWith : simpl never.

Section MiddlewareFacts.

Context {H : Host}.
Variable cfg : Config.

Lemma serveDomComponent_response (file : string) (res : ServerResponse)
    (w : World) :
  fst (serveDomComponent cfg file res w) =
    (Responded,
     mkServerResponse 200 (statusMessage res)
       (<["Content-Type" := "text/html"]> (headers res))
       (Some (getDomComponentHtml (Some (bundleUrlFor cfg file))
                (Some (basename file))))
       true).
Proof.
  unfold serveDomComponent, andThen, warnUnstable, ret, bundleUrlFor.
  destruct (warned w); rewrite generator_run; reflexivity.
Qed.

Lemma middleware_on_parsed (req : ServerRequest) (res : ServerResponse)
    (requestUrl : string) (parsed : URL) :
  url req = Some requestUrl ->
  requestUrl <> "" ->
  coerceUrl requestUrl = Some parsed ->
  createDomComponentsMiddleware cfg req res =
    if negb (JS.startsWith (pathname parsed) "/_expo/@dom")
    then ret (CalledNext, res)
    else
      match searchParams_get (searchParams parsed) "file" with
      | Some f =>
          if negb (JS.startsWith f "file://")
          then ret (Responded, invalidFilePath (Some f) res)
          else serveDomComponent cfg f res
      | None => ret (Responded, invalidFilePath None res)
      end.
Proof.
  intros Hurl Hne Hparsed. unfold createDomComponentsMiddleware.
  rewrite Hurl, (proj2 (truthy_Some requestUrl) Hne), Hparsed. simpl.
  destruct (JS.startsWith (pathname parsed) "/_expo/@dom"); simpl;
    [| reflexivity].
  destruct (searchParams_get (searchParams parsed) "file") as [f|];
    [| reflexivity].
  destruct (String.eqb_spec f "") as [-> | Hf].
  - reflexivity.
  - now rewrite (proj2 (truthy_Some f) Hf).
Qed.

End MiddlewareFacts.



(** C10.  The shell holds its arguments as they are given: for every
    non-empty title the output contains "<title>" + title + "</title>",
    whatever characters the title is made of, and for every non-empty src
    a script tag with that src attribute.  In the answer to a request, the
    title is the basename of the [file] query parameter of the request. *)
Theorem shell_interpolates_verbatim `{Host} (cfg : Config)
    (req : ServerRequest) (res : ServerResponse) (w : World)
    (requestUrl : string) (parsed : URL) (file : string)
    (src : option string) (script title : string) :
  title <> "" ->
  script <> "" ->
  url req = Some requestUrl ->
  requestUrl <> "" ->
  coerceUrl requestUrl = Some parsed ->
  JS.startsWith (pathname parsed) "/_expo/@dom" = true ->
  searchParams_get (searchParams parsed) "file" = Some file ->
  JS.startsWith file "file://" = true ->
  JS.includes (getDomComponentHtml src (Some title))
    ("<title>" ++ title ++ "</title>") = true
  /\ JS.includes (getDomComponentHtml (Some script) (Some title))
       ("<script crossorigin src=" ++ quoted script ++ "></script>") = true
  /\ body_sent (snd (fst (createDomComponentsMiddleware cfg req res w)))
     = Some (getDomComponentHtml (Some (bundleUrlFor cfg file))
               (Some (basename file)))
  /\ (basename file <> "" ->
      exists html,
        body_sent (snd (fst (createDomComponentsMiddleware cfg req res w)))
        = Some html
        /\ JS.includes html ("<title>" ++ basename file ++ "</title>") = true).
Proof.
  intros Htitle Hscript Hurl Hne Hparsed Hpath Hfile Hscheme.
  split; [now apply shell_holds_title |].
  split; [now apply shell_holds_script |].
  rewrite (middleware_on_parsed cfg req res requestUrl parsed Hurl Hne Hparsed).
  rewrite Hpath, Hfile, Hscheme. cbn [negb].
  rewrite serveDomComponent_response. cbn [snd body_sent].
  split; [reflexivity |].
  intros Hbase. eexists. split; [reflexivity |].
  now apply shell_holds_title.
Qed.

Lemma shell_interpolates_verbatim_witness :
  ("<b>T</b>" <> "" /\ "x.js" <> ""
   /\ url Sample.request
      = Some "/_expo/@dom/Widget.js?file=file:///project/src/Widget.js"
   /\ "/_expo/@dom/Widget.js?file=file:///project/src/Widget.js" <> ""
   /\ @coerceUrl Sample.host
        "/_expo/@dom/Widget.js?file=file:///project/src/Widget.js"
      = Some Sample.requestUrl
   /\ JS.startsWith (pathname Sample.requestUrl) "/_expo/@dom" = true
   /\ searchParams_get (searchParams Sample.requestUrl) "file"
      = Some "file:///project/src/Widget.js"
   /\ JS.startsWith "file:///project/src/Widget.js" "file://" = true)
  /\ JS.includes (getDomComponentHtml None (Some "<b>T</b>"))
       "<title><b>T</b></title>" = true
  /\ body_sent
       (snd (fst (@createDomComponentsMiddleware Sample.host Sample.config
                    Sample.request Sample.response Sample.world)))
     = Some (getDomComponentHtml
               (Some (@bundleUrlFor Sample.host Sample.config
                        "file:///project/src/Widget.js"))
               (Some "Widget.js")).
Proof.
  assert (Htitle : "<b>T</b>" <> "") by discriminate.
  assert (Hscript : "x.js" <> "") by discriminate.
  assert (Hurl : url Sample.request
                 = Some "/_expo/@dom/Widget.js?file=file:///project/src/Widget.js")
    by reflexivity.
  assert (Hne : "/_expo/@dom/Widget.js?file=file:///project/src/Widget.js" <> "")
    by discriminate.
  assert (Hparsed : @coerceUrl Sample.host
                      "/_expo/@dom/Widget.js?file=file:///project/src/Widget.js"
                    = Some Sample.requestUrl)
    by (vm_compute; reflexivity).
  assert (Hpath : JS.startsWith (pathname Sample.requestUrl) "/_expo/@dom" = true)
    by reflexivity.
  assert (Hfile : searchParams_get (searchParams Sample.requestUrl) "file"
                  = Some "file:///project/src/Widget.js")
    by reflexivity.
  assert (Hscheme : JS.startsWith "file:///project/src/Widget.js" "file://" = true)
    by reflexivity.
  split; [auto 10 |].
  pose proof (@shell_interpolates_verbatim Sample.host Sample.config
                Sample.request Sample.response Sample.world _
                Sample.requestUrl _ None "x.js" "<b>T</b>"
                Htitle Hscript Hurl Hne Hparsed Hpath Hfile Hscheme)
    as (Hshell & _ & Hbody & _).
  split; [exact Hshell | exact Hbody].
Defined.

(** ** The two hashes *)

(** What a production build makes of a component with an accepted export
    shape, given the declaration of [source]. *)
Lemma production_build `{Host} (platform : option string) (st : ProgramState)
    (filePath declaration : string) (fields : gmap string MetaValue) :
  platformIs platform "web" = false ->
  In "use dom" (directives st) ->
  filename st = Some filePath ->
  filePath <> "" ->
  occurs isDefaultExport (body st) = true ->
  occurs isNamedExport (body st) = false ->
  metadata st = MetadataObject fields ->
  sourceDeclaration true platform filePath (pathToFileURL filePath)
    = Ok declaration ->
  expoUseDomDirectivePlugin true platform st =
    match template_ast (JS.join JS.newline
                          [proxyImports; declaration; proxyExport]) with
    | Some ast =>
        Ok (mkProgramState [] ast (Some filePath)
              (MetadataObject
                 (<["expoDomComponentReference" :=
                      MString (pathToFileURL filePath)]> fields)))
    | None =>
        Throw (SyntaxError (JS.join JS.newline
                              [proxyImports; declaration; proxyExport]))
    end.
Proof.
  intros Hweb Hdir Hfile Hne Hdefault Hnamed Hmeta Hsource.
  rewrite (plugin_on_directive true platform st filePath Hweb
             (proj2 (hasUseDomDirective_In st) Hdir) Hfile Hne).
  rewrite rewrite_spec, Hnamed, Hdefault. cbn [negb].
  unfold proxyModule. rewrite Hsource. cbn [bind]. unfold finish.
  destruct (template_ast (JS.join JS.newline
                            [proxyImports; declaration; proxyExport]));
    [| reflexivity].
  rewrite Hmeta, Hfile. reflexivity.
Qed.

(** C1, as amended.  For every file path p, the hash in the generator's
    entry path is the SHA-1 digest of the file-system path (of the path
    behind p when p is a file:// URL, of p itself otherwise), and the hash
    in the URI that a production build of the transformer declares for a
    component at p, on ios and on android, is the SHA-1 digest of the
    canonical file URL of p.  Each component's hash is a function of the
    string it hashes; the two strings are not the same, and their digests
    differ, as for /project/src/Widget.js and its URL. *)
Theorem hashes_by_component `{Host} (cfg : Config) (p : string)
    (st : ProgramState) (fields : gmap string MetaValue) (w : World) :
  In "use dom" (directives st) ->
  filename st = Some p ->
  p <> "" ->
  occurs isDefaultExport (body st) = true ->
  occurs isNamedExport (body st) = false ->
  metadata st = MetadataObject fields ->
  let compiledWith (declaration : string) :=
    match template_ast (JS.join JS.newline
                          [proxyImports; declaration; proxyExport]) with
    | Some ast =>
        Ok (mkProgramState [] ast (Some p)
              (MetadataObject
                 (<["expoDomComponentReference" := MString (pathToFileURL p)]>
                    fields)))
    | None =>
        Throw (SyntaxError (JS.join JS.newline
                              [proxyImports; declaration; proxyExport]))
    end in
  fst (getDomComponentVirtualEntryModuleAsync cfg p w) =
    path_join [projectRoot cfg; ".expo/@dom";
               Sha1.sha1 (if JS.startsWith p "file://"
                          then fileURLToFilePath p else p) ++ ".js"]
  /\ expoUseDomDirectivePlugin true (Some "ios") st =
       compiledWith
         ("const source = { uri: "
            ++ quoted ("www.bundle/" ++ Sha1.sha1 (pathToFileURL p) ++ ".html")
            ++ " };")
  /\ expoUseDomDirectivePlugin true (Some "android") st =
       compiledWith
         ("const source = { uri: " ++ quoted "file:///android_asset" ++ " + "
            ++ quoted ("www/" ++ Sha1.sha1 (pathToFileURL p) ++ ".html")
            ++ " };")
  /\ Sha1.sha1 "/project/src/Widget.js"
     <> Sha1.sha1 "file:///project/src/Widget.js".
Proof.
  intros Hdir Hfile Hne Hdefault Hnamed Hmeta compiledWith.
  split; [now rewrite generator_run |].
  split; [| split].
  - apply production_build; try assumption; [reflexivity |].
    now apply sourceDeclaration_ios.
  - apply production_build; try assumption; [reflexivity |].
    now apply sourceDeclaration_android.
  - vm_compute. discriminate.
Qed.

Lemma hashes_by_component_witness :
  (In "use dom" (directives Sample.component)
   /\ filename Sample.component = Some Sample.widget
   /\ Sample.widget <> ""
   /\ occurs isDefaultExport (body Sample.component) = true
   /\ occurs isNamedExport (body Sample.component) = false
   /\ metadata Sample.component = MetadataObject ∅)
  /\ fst (@getDomComponentVirtualEntryModuleAsync Sample.host Sample.config
            Sample.widget Sample.world)
     = @path_join Sample.host
         [projectRoot Sample.config; ".expo/@dom";
          Sha1.sha1 (if JS.startsWith Sample.widget "file://"
                     then @fileURLToFilePath Sample.host Sample.widget
                     else Sample.widget) ++ ".js"]
  /\ @expoUseDomDirectivePlugin Sample.host true (Some "ios") Sample.component
     = match
         @template_ast Sample.host
           (JS.join JS.newline
              [proxyImports;
               "const source = { uri: "
                 ++ quoted ("www.bundle/"
                              ++ Sha1.sha1 (@pathToFileURL Sample.host Sample.widget)
                              ++ ".html")
                 ++ " };";
               proxyExport])
       with
       | Some ast =>
           Ok (mkProgramState [] ast (Some Sample.widget)
                 (MetadataObject
                    (<["expoDomComponentReference" :=
                         MString (@pathToFileURL Sample.host Sample.widget)]> ∅)))
       | None =>
           Throw (SyntaxError
                    (JS.join JS.newline
                       [proxyImports;
                        "const source = { uri: "
                          ++ quoted ("www.bundle/"
                                       ++ Sha1.sha1 (@pathToFileURL Sample.host
                                                       Sample.widget)
                                       ++ ".html")
                          ++ " };";
                        proxyExport]))
       end.
Proof.
  assert (Hdir : In "use dom" (directives Sample.component))
    by (simpl; auto).
  assert (Hfile : filename Sample.component = Some Sample.widget)
    by reflexivity.
  assert (Hne : Sample.widget <> "") by discriminate.
  assert (Hdefault : occurs isDefaultExport (body Sample.component) = true)
    by reflexivity.
  assert (Hnamed : occurs isNamedExport (body Sample.component) = false)
    by reflexivity.
  assert (Hmeta : metadata Sample.component = MetadataObject ∅)
    by reflexivity.
  split; [auto 10 |].
  pose proof (@hashes_by_component Sample.host Sample.config Sample.widget
                Sample.component ∅ Sample.world
                Hdir Hfile Hne Hdefault Hnamed Hmeta)
    as (Hentry & Hios & _).
  split; [exact Hentry | exact Hios].
Defined.

(** C1, as stated, fails.  For the component at /project/src/Widget.js the
    entry path holds the digest of the path, whether the generator is given
    the path or its canonical URL, and the proxy module that the production
    build for ios puts in the place of the component holds the digest of
    the canonical URL, which is another one: neither digest occurs where
    the other component put its own. *)
Lemma generator_and_transformer_hashes_differ :
  filename Sample.component = Some "/project/src/Widget.js"
  /\ fst (@getDomComponentVirtualEntryModuleAsync Sample.host Sample.config
            "/project/src/Widget.js" Sample.world)
     = "/project/.expo/@dom/cbb6f3ba81bbe1bd0ab0d215d26b5dc0340ff6fb.js"
  /\ fst (@getDomComponentVirtualEntryModuleAsync Sample.host Sample.config
            "file:///project/src/Widget.js" Sample.world)
     = "/project/.expo/@dom/cbb6f3ba81bbe1bd0ab0d215d26b5dc0340ff6fb.js"
  /\ @expoUseDomDirectivePlugin Sample.host true (Some "ios") Sample.component
     = Ok Sample.compiled
  /\ body Sample.compiled
     = [mkNode
          (OtherNode
             (JS.join JS.newline
                [proxyImports;
                 "const source = { uri: "
                   ++ quoted "www.bundle/090443041a8531671b5654e7ee62c9a014595e47.html"
                   ++ " };";
                 proxyExport])) []]
  /\ JS.includes
       "/project/.expo/@dom/cbb6f3ba81bbe1bd0ab0d215d26b5dc0340ff6fb.js"
       "090443041a8531671b5654e7ee62c9a014595e47" = false
  /\ JS.includes
       (JS.join JS.newline
          [proxyImports;
           "const source = { uri: "
             ++ quoted "www.bundle/090443041a8531671b5654e7ee62c9a014595e47.html"
             ++ " };";
           proxyExport])
       "cbb6f3ba81bbe1bd0ab0d215d26b5dc0340ff6fb" = false
  /\ Sha1.sha1 "/project/src/Widget.js"
     <> Sha1.sha1 "file:///project/src/Widget.js".
Proof.
  repeat split; try (vm_compute; reflexivity).
  vm_compute. discriminate.
Qed.

(** ** A first and a second request for the same file

    /project/src/Widget.js is requested from a server that has served
    nothing yet, then once more. *)

Example first_request :
  let result :=
    @createDomComponentsMiddleware Sample.host Sample.config
      Sample.firstRequest Sample.response Sample.world in
  fst (fst result) = Responded
  /\ statusCode (snd (fst result)) = 200
  /\ map_to_list (files (snd result))
     = [(Sample.entryPath, Sample.entrySource)]
  /\ trace (snd result) =
       [LogWarn "Using experimental DOM Components API. Production exports may not work as expected.";
        Mkdir "/project/.expo/@dom";
        Stat Sample.entryPath;
        WriteFile Sample.entryPath Sample.entrySource;
        SetTimeout 1000]
  /\ option_map
       (fun html =>
          JS.includes html
            ("<script crossorigin src="
               ++ quoted ("http://localhost:8081/.expo/@dom/cbb6f3ba81bbe1bd0ab0d215d26b5dc0340ff6fb.js.bundle"
                            ++ "?platform=web&dom=true&lazy=true&bytecode=false&engine=hermes")
               ++ "></script>")
          && JS.includes html "<title>Widget.js</title>")
       (body_sent (snd (fst result))) = Some true.
Proof. cbv zeta. repeat split; vm_compute; reflexivity. Qed.

Example second_request :
  let first :=
    @createDomComponentsMiddleware Sample.host Sample.config
      Sample.firstRequest Sample.response Sample.world in
  let second :=
    @createDomComponentsMiddleware Sample.host Sample.config
      Sample.firstRequest Sample.response
      (mkWorld (files (snd first)) (dirs (snd first)) (warned (snd first)) []) in
  statusCode (snd (fst second)) = 200
  /\ map_to_list (files (snd second))
     = [(Sample.entryPath, Sample.entrySource)]
  /\ trace (snd second) =
       [Mkdir "/project/.expo/@dom";
        Stat Sample.entryPath;
        WriteFile Sample.entryPath Sample.entrySource].
Proof. cbv zeta. repeat split; vm_compute; reflexivity. Qed.

(** A request outside the prefix, and one whose [file] is not a file URL. *)
Example request_elsewhere :
  @createDomComponentsMiddleware Sample.host Sample.config
    (mkServerRequest (Some "/other/path")) Sample.response Sample.world
  = ((CalledNext, Sample.response), Sample.world).
Proof. reflexivity. Qed.

Example request_without_file_url :
  @createDomComponentsMiddleware Sample.host Sample.config
    (mkServerRequest (Some "/_expo/@dom?file=not-a-file-url"))
    Sample.response Sample.world
  = ((Responded,
      mkServerResponse 400 (Some "Invalid file path: not-a-file-url") ∅ None
        true),
     Sample.world)
  /\ @createDomComponentsMiddleware Sample.host Sample.config
       (mkServerRequest (Some "/_expo/@dom")) Sample.response Sample.world
     = ((Responded,
         mkServerResponse 400 (Some "Invalid file path: null") ∅ None true),
        Sample.world).
Proof. split; reflexivity. Qed.

(** ** The title on POSIX

    The [file] parameter of a served request starts with "file://", so its
    basename is not empty and the shell always has a title element, made
    of what the client sent. *)

(** X17.  On POSIX every served shell has a title element, which holds
    the basename of the [file] parameter as the client sent it. *)
Lemma posix_response_titled (cwd : string) (cfg : @Config (Posix.host cwd))
    (req : ServerRequest) (res : ServerResponse) (w : World)
    (requestUrl : string) (parsed : URL) (file : string) :
  url req = Some requestUrl ->
  requestUrl <> "" ->
  @coerceUrl (Posix.host cwd) requestUrl = Some parsed ->
  JS.startsWith (pathname parsed) "/_expo/@dom" = true ->
  searchParams_get (searchParams parsed) "file" = Some file ->
  JS.startsWith file "file://" = true ->
  exists html,
    body_sent
      (snd (fst (@createDomComponentsMiddleware (Posix.host cwd) cfg req res w)))
    = Some html
    /\ JS.includes html ("<title>" ++ Posix.basename file ++ "</title>") = true.
Proof.
  intros Hurl Hne Hparsed Hpath Hfile Hscheme.
  rewrite (middleware_on_parsed cfg req res requestUrl parsed Hurl Hne Hparsed).
  rewrite Hpath, Hfile, Hscheme. cbn [negb].
  rewrite serveDomComponent_response. cbn [snd body_sent].
  eexists. split; [reflexivity |].
  apply shell_holds_title, basename_nonempty, file_url_not_slashOnly, Hscheme.
Qed.

Example markup_in_title :
  option_map
    (fun html =>
       JS.includes html "<title><img src=x onerror=alert(1)>.js</title>")
    (body_sent
       (snd (fst (@createDomComponentsMiddleware Sample.host Sample.config
                    (mkServerRequest
                       (Some "/_expo/@dom?file=file:///project/<img src=x onerror=alert(1)>.js"))
                    Sample.response Sample.world))))
  = Some true.
Proof. vm_compute. reflexivity. Qed.

(** ** The transformer on sample modules *)

Example default_and_named_export_rejected :
  @expoUseDomDirectivePlugin Sample.host false (Some "ios")
    (mkProgramState ["use dom"] [Sample.defaultExport; Sample.namedExport]
       (Some Sample.widget) (MetadataObject ∅))
  = Throw namedExportPresent.
Proof. reflexivity. Qed.

Example named_export_alone_rejected :
  @expoUseDomDirectivePlugin Sample.host false (Some "ios")
    (mkProgramState ["use dom"] [Sample.namedExport]
       (Some Sample.widget) (MetadataObject ∅))
  = Throw namedExportPresent.
Proof. reflexivity. Qed.

Example nested_named_export_rejected :
  @expoUseDomDirectivePlugin Sample.host false (Some "ios")
    (mkProgramState ["use dom"]
       [Sample.defaultExport;
        mkNode (OtherNode "TSModuleDeclaration")
          [mkNode (OtherNode "TSModuleBlock") [Sample.namedExport]]]
       (Some Sample.widget) (MetadataObject ∅))
  = Throw namedExportPresent.
Proof. reflexivity. Qed.

Example no_export_rejected :
  @expoUseDomDirectivePlugin Sample.host false (Some "ios")
    (mkProgramState ["use dom"] [mkNode (OtherNode "ExportAllDeclaration") []]
       (Some Sample.widget) (MetadataObject ∅))
  = Throw missingDefaultExport.
Proof. reflexivity. Qed.

Example production_without_platform_rejected :
  @expoUseDomDirectivePlugin Sample.host true None Sample.component
  = Throw (PlainError
             ("production " ++ quoted "use dom"
                ++ " directive is not supported yet for platform: undefined")).
Proof. vm_compute. reflexivity. Qed.

Example metadata_not_an_object_rejected :
  @expoUseDomDirectivePlugin Sample.host false (Some "android")
    (mkProgramState ["use dom"] [Sample.defaultExport] (Some Sample.widget)
       MetadataNotObject)
  = Throw (PlainError "Expected Babel state.file.metadata to be an object").
Proof. vm_compute. reflexivity. Qed.

Example android_production_source :
  @sourceDeclaration Sample.host true (Some "android") Sample.widget
    "file:///project/src/Widget.js"
  = Ok ("const source = { uri: " ++ quoted "file:///android_asset" ++ " + "
          ++ quoted "www/090443041a8531671b5654e7ee62c9a014595e47.html"
          ++ " };").
Proof. vm_compute. reflexivity. Qed.

Example development_source :
  @sourceDeclaration Sample.host false (Some "ios") Sample.widget
    "file:///project/src/Widget.js"
  = Ok ("const source = { uri: new URL("
          ++ quoted "/_expo/@dom/Widget.js?file=" ++ " + "
          ++ quoted "file:///project/src/Widget.js" ++ ", require("
          ++ quoted "react-native/Libraries/Core/Devtools/getDevServer"
          ++ ")().url).toString() };").
Proof. vm_compute. reflexivity. Qed.

(** The basename goes into the string literal as it is, the output key
    through [JSON.stringify]. *)
Example development_source_basename_as_is :
  @sourceDeclaration Sample.host false (Some "ios")
    ("/project/a" ++ JS.dquote ++ "b.js") "file:///project/a%22b.js"
  = Ok ("const source = { uri: new URL("
          ++ JS.dquote ++ "/_expo/@dom/a" ++ JS.dquote ++ "b.js?file="
          ++ JS.dquote ++ " + "
          ++ quoted "file:///project/a%22b.js" ++ ", require("
          ++ quoted "react-native/Libraries/Core/Devtools/getDevServer"
          ++ ")().url).toString() };").
Proof. vm_compute. reflexivity. Qed.

(** With a question mark in the basename, the path of the reference ends
    at that mark, and the query is not the [file] parameter alone. *)
Example development_reference_cut_short :
  @sourceDeclaration Sample.host false (Some "ios") "/project/a?b.js"
    "file:///project/a%3Fb.js"
  = Ok ("const source = { uri: new URL("
          ++ quoted "/_expo/@dom/a?b.js?file=" ++ " + "
          ++ quoted "file:///project/a%3Fb.js" ++ ", require("
          ++ quoted "react-native/Libraries/Core/Devtools/getDevServer"
          ++ ")().url).toString() };")
  /\ Reference.path ("/_expo/@dom/a?b.js?file=" ++ "file:///project/a%3Fb.js")
     = "/_expo/@dom/a"
  /\ Reference.query ("/_expo/@dom/a?b.js?file=" ++ "file:///project/a%3Fb.js")
     = Some "b.js?file=file:///project/a%3Fb.js".
Proof. repeat split; vm_compute; reflexivity. Qed.

(** With a quote in the basename, the first literal ends at that quote. *)
Example development_literal_cut_short :
  Literal.readLiteral
    (JS.dquote ++ "/_expo/@dom/a" ++ JS.dquote ++ "b.js?file=" ++ JS.dquote)
  = Some ("/_expo/@dom/a", "b.js?file=" ++ JS.dquote).
Proof. vm_compute. reflexivity. Qed.

(** ** The import specifier on sample files *)

Example sibling_file_prefixed :
  @relativeImport Sample.host Sample.entryPath "/project/.expo/@dom/x.js"
  = "./x.js".
Proof. vm_compute. reflexivity. Qed.

Example file_elsewhere_kept :
  @relativeImport Sample.host Sample.entryPath Sample.widget
  = "../../src/Widget.js".
Proof. vm_compute. reflexivity. Qed.

(** A relative path that begins with a dot of its own is kept as it is. *)
Example dotfile_kept :
  @relativeImport Sample.host Sample.entryPath "/project/.expo/@dom/.hidden.js"
  = ".hidden.js".
Proof. vm_compute. reflexivity. Qed.


(** * Further properties *)

(** ** What a request does to the world *)

Section WorldFacts.

Context {H : Host}.
Variable cfg : Config.

Lemma serveDomComponent_world (file : string) (res : ServerResponse)
    (w : World) :
  snd (serveDomComponent cfg file res w) =
    mkWorld (<[generatedEntryPath cfg file := entryText cfg file]> (files w))
      ({[dirname (generatedEntryPath cfg file)]} ∪ dirs w) true
      (trace w ++ servedSteps cfg file w).
Proof.
  unfold serveDomComponent, andThen, warnUnstable, ret, servedSteps, emit.
  destruct (warned w) eqn:Hwarned; rewrite generator_run; simpl.
  - now rewrite Hwarned.
  - now rewrite <- !app_assoc.
Qed.

(** The four ways a call can go. *)
Lemma middleware_cases (req : ServerRequest) (res : ServerResponse)
    (w : World) :
  createDomComponentsMiddleware cfg req res w = ((CalledNext, res), w)
  \/ createDomComponentsMiddleware cfg req res w = ((Rejected, res), w)
  \/ (exists file,
        createDomComponentsMiddleware cfg req res w
        = ((Responded, invalidFilePath file res), w))
  \/ (exists file,
        asksFor req file
        /\ createDomComponentsMiddleware cfg req res w
           = serveDomComponent cfg file res w).
Proof.
  unfold createDomComponentsMiddleware, asksFor.
  destruct (url req) as [requestUrl|]; [| now left].
  destruct (JS.truthy (Some requestUrl)) eqn:Hurl; [| now left]. cbn [negb].
  apply truthy_Some in Hurl.
  destruct (coerceUrl requestUrl) as [parsed|] eqn:Hparsed;
    [| now right; left].
  destruct (JS.startsWith (pathname parsed) "/_expo/@dom") eqn:Hpath;
    [| now left].
  cbn [negb].
  destruct (searchParams_get (searchParams parsed) "file") as [file|] eqn:Hfile;
    [| right; right; left; now exists None].
  destruct (JS.truthy (Some file)); cbn [negb orb];
    [| right; right; left; now exists (Some file)].
  destruct (JS.startsWith file "file://") eqn:Hscheme; cbn [negb].
  - right; right; right. exists file. split; [| reflexivity].
    exists requestUrl, parsed. auto 10.
  - right; right; left. now exists (Some file).
Qed.

(** One call: either the world is what it was, or the [file] that the
    request asks for was served. *)
Lemma middleware_world_asked (req : ServerRequest) (res : ServerResponse)
    (w : World) :
  snd (createDomComponentsMiddleware cfg req res w) = w
  \/ exists file,
       asksFor req file
       /\ snd (createDomComponentsMiddleware cfg req res w)
          = mkWorld (<[generatedEntryPath cfg file := entryText cfg file]> (files w))
              ({[dirname (generatedEntryPath cfg file)]} ∪ dirs w) true
              (trace w ++ servedSteps cfg file w).
Proof.
  destruct (middleware_cases req res w)
    as [Hr | [Hr | [[file Hr] | (file & Hasks & Hr)]]]; rewrite Hr;
    try (now left).
  right. exists file. split; [exact Hasks | apply serveDomComponent_world].
Qed.

Lemma middleware_world (req : ServerRequest) (res : ServerResponse)
    (w : World) :
  snd (createDomComponentsMiddleware cfg req res w) = w
  \/ exists file,
       snd (createDomComponentsMiddleware cfg req res w)
       = mkWorld (<[generatedEntryPath cfg file := entryText cfg file]> (files w))
           ({[dirname (generatedEntryPath cfg file)]} ∪ dirs w) true
           (trace w ++ servedSteps cfg file w).
Proof.
  destruct (middleware_world_asked req res w) as [Hw | (file & _ & Hw)];
    [now left | right; now exists file].
Qed.

Lemma servedSteps_warnings (file : string) (w : World) :
  List.length (List.filter isWarning (servedSteps cfg file w))
  = if warned w then 0 else 1.
Proof.
  unfold servedSteps.
  destruct (warned w), (bool_decide (is_Some (files w !! generatedEntryPath cfg file)));
    reflexivity.
Qed.

Lemma servedSteps_timers (file : string) (w : World) :
  List.length (List.filter isTimer (servedSteps cfg file w))
  = if bool_decide (is_Some (files w !! generatedEntryPath cfg file))
    then 0 else 1.
Proof.
  unfold servedSteps.
  destruct (warned w), (bool_decide (is_Some (files w !! generatedEntryPath cfg file)));
    reflexivity.
Qed.

Lemma middleware_warned (req : ServerRequest) (res : ServerResponse)
    (w : World) :
  warned w = true ->
  warned (snd (createDomComponentsMiddleware cfg req res w)) = true.
Proof.
  intros Hwarned.
  destruct (middleware_world req res w) as [-> | [file ->]];
    [exact Hwarned | reflexivity].
Qed.

Lemma handleAll_warned (requests : list (ServerRequest * ServerResponse))
    (w : World) :
  warned w = true -> warned (handleAll cfg requests w) = true.
Proof.
  revert w. induction requests as [|[req res] rest IH]; intros w Hwarned;
    [exact Hwarned |].
  simpl. apply IH, middleware_warned, Hwarned.
Qed.

Lemma middleware_warnings (req : ServerRequest) (res : ServerResponse)
    (w : World) :
  warnings (snd (createDomComponentsMiddleware cfg req res w))
  = warnings w
    + (if negb (warned w)
          && warned (snd (createDomComponentsMiddleware cfg req res w))
       then 1 else 0).
Proof.
  destruct (middleware_world req res w) as [-> | [file ->]].
  - destruct (warned w); simpl; lia.
  - unfold warnings. cbn [trace warned].
    rewrite List.filter_app, List.length_app, servedSteps_warnings.
    now destruct (warned w).
Qed.

Lemma middleware_timers (req : ServerRequest) (res : ServerResponse)
    (w : World) :
  timers (snd (createDomComponentsMiddleware cfg req res w)) + size (files w)
  = timers w + size (files (snd (createDomComponentsMiddleware cfg req res w))).
Proof.
  destruct (middleware_world req res w) as [-> | [file ->]]; [lia |].
  unfold timers. cbn [trace files].
  rewrite List.filter_app, List.length_app, servedSteps_timers.
  destruct (files w !! generatedEntryPath cfg file) as [old|] eqn:Hold.
  - rewrite bool_decide_eq_true_2 by eauto.
    rewrite map_size_insert_Some by eauto. lia.
  - rewrite bool_decide_eq_false_2 by (intros [? ?]; discriminate).
    rewrite map_size_insert_None by exact Hold. lia.
Qed.

End WorldFacts.

(** X1.  A call of the middleware acts on the world only when it serves
    the file its request asks for: when it calls the next handler, cannot
    parse the URL or answers 400, the files, the directories, the warning
    memo and the trace are what they were, and the response is untouched
    unless the answer is 400; otherwise the URL of the request parses, has
    the prefix of the middleware and a [file://] URL for [file] parameter,
    the answer is 200 and the entry module of that very file is on disk. *)
Theorem only_served_requests_act `{Host} (cfg : Config) (req : ServerRequest)
    (res : ServerResponse) (w : World) :
  (snd (createDomComponentsMiddleware cfg req res w) = w
   /\ (fst (createDomComponentsMiddleware cfg req res w) = (CalledNext, res)
       \/ fst (createDomComponentsMiddleware cfg req res w) = (Rejected, res)
       \/ exists file,
            fst (createDomComponentsMiddleware cfg req res w)
            = (Responded, invalidFilePath file res)))
  \/ (fst (fst (createDomComponentsMiddleware cfg req res w)) = Responded
      /\ statusCode (snd (fst (createDomComponentsMiddleware cfg req res w)))
         = 200
      /\ warned (snd (createDomComponentsMiddleware cfg req res w)) = true
      /\ exists requestUrl parsed file,
           url req = Some requestUrl
           /\ coerceUrl requestUrl = Some parsed
           /\ JS.startsWith (pathname parsed) "/_expo/@dom" = true
           /\ searchParams_get (searchParams parsed) "file" = Some file
           /\ JS.startsWith file "file://" = true
           /\ files (snd (createDomComponentsMiddleware cfg req res w))
                !! generatedEntryPath cfg file
              = Some (entryText cfg file)).
Proof.
  destruct (middleware_cases cfg req res w)
    as [Hr | [Hr | [[file Hr] | (file & Hasks & Hr)]]]; rewrite Hr.
  - left. auto.
  - left. auto.
  - left. split; [reflexivity |]. right; right. now exists file.
  - right. rewrite serveDomComponent_world, serveDomComponent_response.
    cbn [fst snd statusCode warned files].
    destruct Hasks as (requestUrl & parsed & Hurl & _ & Hparsed & Hpath
                       & Hfile & Hscheme).
    repeat split. exists requestUrl, parsed, file.
    repeat (split; [assumption |]).
    apply lookup_insert_eq.
Qed.

(** X2.  Whatever requests are handled, one after the other, every path of
    the file system either holds what it held before, or is the entry path
    of a file that one of these requests asks for, and holds the entry
    module of that file. *)
Theorem server_writes_entries_only `{Host} (cfg : Config)
    (requests : list (ServerRequest * ServerResponse)) (w : World)
    (path : string) :
  files (handleAll cfg requests w) !! path = files w !! path
  \/ exists req res file,
       In (req, res) requests
       /\ asksFor req file
       /\ path = generatedEntryPath cfg file
       /\ files (handleAll cfg requests w) !! path = Some (entryText cfg file).
Proof.
  revert w. induction requests as [|[req res] rest IH]; intros w;
    [now left |].
  simpl.
  destruct (IH (snd (createDomComponentsMiddleware cfg req res w)))
    as [Hsame | (req' & res' & file & Hin & Hasks & Hpath & Hentry)].
  - rewrite !Hsame.
    destruct (middleware_world_asked cfg req res w)
      as [-> | (file & Hasks & ->)]; [now left |].
    cbn [files].
    destruct (String.eqb_spec path (generatedEntryPath cfg file)) as [-> | Hne].
    + right. exists req, res, file.
      split; [now left |]. split; [exact Hasks |].
      split; [reflexivity | apply lookup_insert_eq].
    + left. now apply lookup_insert_ne.
  - right. exists req', res', file. split; [now right | auto].
Qed.

(** X3.  The server never undoes anything: whatever requests are handled,
    every file and every directory that was there is still there, and the
    trace of what happened is extended, never rewritten. *)
Theorem server_never_removes `{Host} (cfg : Config)
    (requests : list (ServerRequest * ServerResponse)) (w : World) :
  dom (files w) ⊆ dom (files (handleAll cfg requests w))
  /\ dirs w ⊆ dirs (handleAll cfg requests w)
  /\ exists steps, trace (handleAll cfg requests w) = (trace w ++ steps)%list.
Proof.
  revert w. induction requests as [|[req res] rest IH]; intros w.
  - split; [reflexivity |]. split; [reflexivity |].
    exists []. now rewrite app_nil_r.
  - simpl.
    destruct (IH (snd (createDomComponentsMiddleware cfg req res w)))
      as (Hfiles & Hdirs & steps & Htrace).
    destruct (middleware_world cfg req res w) as [Hw | [file Hw]];
      rewrite Hw in Hfiles, Hdirs, Htrace; rewrite Hw.
    + split; [exact Hfiles |]. split; [exact Hdirs |]. now exists steps.
    + cbn [files dirs trace] in Hfiles, Hdirs, Htrace.
      rewrite dom_insert_L in Hfiles.
      split; [etrans; [apply union_subseteq_r | exact Hfiles] |].
      split; [etrans; [apply union_subseteq_r | exact Hdirs] |].
      exists (servedSteps cfg file w ++ steps)%list.
      now rewrite Htrace, <- app_assoc.
Qed.

(** X4.  The warning about the experimental API is logged at most once:
    over any requests handled one after the other, the log gains one
    warning if the memo goes from unset to set, and none otherwise; in
    particular none once the memo is set. *)
Theorem warns_at_most_once `{Host} (cfg : Config)
    (requests : list (ServerRequest * ServerResponse)) (w : World) :
  warnings (handleAll cfg requests w)
  = warnings w
    + (if negb (warned w) && warned (handleAll cfg requests w) then 1 else 0).
Proof.
  revert w. induction requests as [|[req res] rest IH]; intros w.
  - simpl. destruct (warned w); simpl; lia.
  - simpl. rewrite IH, middleware_warnings.
    destruct (warned w) eqn:Hbefore.
    + rewrite (middleware_warned cfg req res w Hbefore). simpl. lia.
    + destruct (warned (snd (createDomComponentsMiddleware cfg req res w)))
        eqn:Hafter; simpl.
      * rewrite (handleAll_warned cfg rest _ Hafter). lia.
      * lia.
Qed.

(** X5.  The settling delay is taken once for each entry file that is
    created: over any requests handled one after the other, the number of
    timers set is the number of files the file system gained. *)
Theorem one_delay_for_each_new_entry `{Host} (cfg : Config)
    (requests : list (ServerRequest * ServerResponse)) (w : World) :
  timers (handleAll cfg requests w) + size (files w)
  = timers w + size (files (handleAll cfg requests w)).
Proof.
  revert w. induction requests as [|[req res] rest IH]; intros w;
    [reflexivity |].
  simpl.
  pose proof (IH (snd (createDomComponentsMiddleware cfg req res w))) as Hrest.
  pose proof (middleware_timers cfg req res w) as Hstep.
  lia.
Qed.

(** ** The generator called again *)

(** X6.  A second call for the same file rewrites the entry in place: it
    returns the same path, leaves the files and directories as the first
    call left them, and takes three steps, the last of which is the write;
    it does not wait. *)
Theorem second_call_rewrites_in_place `{Host} (cfg : Config) (file : string)
    (w : World) :
  let first := getDomComponentVirtualEntryModuleAsync cfg file w in
  let second := getDomComponentVirtualEntryModuleAsync cfg file (snd first) in
  fst second = fst first
  /\ files (snd second) = files (snd first)
  /\ dirs (snd second) = dirs (snd first)
  /\ trace (snd second)
     = (trace (snd first)
          ++ [Mkdir (dirname (fst first)); Stat (fst first);
              WriteFile (fst first) (entryText cfg file)])%list.
Proof.
  cbv zeta. rewrite !generator_run. cbn [fst snd files dirs trace warned].
  split; [reflexivity |]. split; [apply insert_insert_eq |].
  split; [rewrite (assoc_L (∪)), (idemp_L (∪)); reflexivity |].
  rewrite lookup_insert_eq.
  rewrite (bool_decide_eq_true_2 (is_Some (Some (entryText cfg file))))
    by (eexists; reflexivity).
  now rewrite app_nil_r.
Qed.

(** X7.  A file may be named by its [file://] URL or by its path: when
    the URL resolves to a path that is not itself a [file://] string, both
    calls do the same, step for step. *)
Theorem url_and_path_share_entry `{Host} (cfg : Config) (file : string)
    (w : World) :
  JS.startsWith file "file://" = true ->
  JS.startsWith (fileURLToFilePath file) "file://" = false ->
  getDomComponentVirtualEntryModuleAsync cfg file w
  = getDomComponentVirtualEntryModuleAsync cfg (fileURLToFilePath file) w.
Proof.
  intros Hurl Hpath. rewrite !generator_run.
  unfold entryText, generatedEntryPath, entryFilePath.
  now rewrite Hurl, Hpath.
Qed.

Lemma url_and_path_share_entry_witness :
  (JS.startsWith "file:///project/src/Widget.js" "file://" = true
   /\ JS.startsWith
        (@fileURLToFilePath Sample.host "file:///project/src/Widget.js")
        "file://" = false)
  /\ @getDomComponentVirtualEntryModuleAsync Sample.host Sample.config
       "file:///project/src/Widget.js" Sample.world
     = @getDomComponentVirtualEntryModuleAsync Sample.host Sample.config
         (@fileURLToFilePath Sample.host "file:///project/src/Widget.js")
         Sample.world.
Proof.
  assert (Hurl : JS.startsWith "file:///project/src/Widget.js" "file://" = true)
    by reflexivity.
  assert (Hpath : JS.startsWith
                    (@fileURLToFilePath Sample.host
                       "file:///project/src/Widget.js") "file://" = false)
    by reflexivity.
  split; [auto |].
  exact (@url_and_path_share_entry Sample.host Sample.config
           "file:///project/src/Widget.js" Sample.world Hurl Hpath).
Defined.

(** X8.  When a request is served, the shell it gets loads the bundle of
    the entry that this very call has put on disk: the bundle path is made
    for the entry's path relative to the Metro root, with the DOM flag on,
    platform web, bytecode off, exporting off, engine hermes and lazy
    bundling on, over the instance's own options; and the call has warned
    (the first time), made the directory, looked, written and, for a new
    file, waited, in this order. *)
Theorem served_shell_loads_written_entry `{Host} (cfg : Config)
    (req : ServerRequest) (res : ServerResponse) (w : World)
    (requestUrl : string) (parsed : URL) (file : string) :
  url req = Some requestUrl ->
  requestUrl <> "" ->
  coerceUrl requestUrl = Some parsed ->
  JS.startsWith (pathname parsed) "/_expo/@dom" = true ->
  searchParams_get (searchParams parsed) "file" = Some file ->
  JS.startsWith file "file://" = true ->
  let result := createDomComponentsMiddleware cfg req res w in
  let entry := generatedEntryPath cfg file in
  files (snd result) !! entry = Some (entryText cfg file)
  /\ body_sent (snd (fst result))
     = Some (getDomComponentHtml
               (Some (URL_toString
                        (createBundleUrlPath
                           (mkExpoMetroOptions (instanceMetroOptions cfg) true
                              (path_relative (metroRoot cfg) entry)
                              false "web" false "hermes" true))
                        (getDevServerUrl cfg)))
               (Some (basename file)))
  /\ trace (snd result)
     = (trace w
          ++ (if warned w then []
              else [LogWarn "Using experimental DOM Components API. Production exports may not work as expected."])
          ++ [Mkdir (dirname entry); Stat entry;
              WriteFile entry (entryText cfg file)]
          ++ (if bool_decide (is_Some (files w !! entry)) then []
              else [SetTimeout 1000]))%list.
Proof.
  intros Hurl Hne Hparsed Hpath Hfile Hscheme. cbv zeta.
  rewrite (middleware_on_parsed cfg req res requestUrl parsed Hurl Hne Hparsed).
  rewrite Hpath, Hfile, Hscheme. cbn [negb].
  rewrite serveDomComponent_world, serveDomComponent_response.
  cbn [fst snd files trace body_sent].
  split; [apply lookup_insert_eq |]. split; reflexivity.
Qed.

Lemma served_shell_loads_written_entry_witness :
  (url Sample.request
   = Some "/_expo/@dom/Widget.js?file=file:///project/src/Widget.js"
   /\ "/_expo/@dom/Widget.js?file=file:///project/src/Widget.js" <> ""
   /\ @coerceUrl Sample.host
        "/_expo/@dom/Widget.js?file=file:///project/src/Widget.js"
      = Some Sample.requestUrl
   /\ JS.startsWith (pathname Sample.requestUrl) "/_expo/@dom" = true
   /\ searchParams_get (searchParams Sample.requestUrl) "file"
      = Some "file:///project/src/Widget.js"
   /\ JS.startsWith "file:///project/src/Widget.js" "file://" = true)
  /\ files
       (snd (@createDomComponentsMiddleware Sample.host Sample.config
               Sample.request Sample.response Sample.world))
       !! @generatedEntryPath Sample.host Sample.config
            "file:///project/src/Widget.js"
     = Some (@entryText Sample.host Sample.config
               "file:///project/src/Widget.js").
Proof.
  assert (Hurl : url Sample.request
                 = Some "/_expo/@dom/Widget.js?file=file:///project/src/Widget.js")
    by reflexivity.
  assert (Hne : "/_expo/@dom/Widget.js?file=file:///project/src/Widget.js" <> "")
    by discriminate.
  assert (Hparsed : @coerceUrl Sample.host
                      "/_expo/@dom/Widget.js?file=file:///project/src/Widget.js"
                    = Some Sample.requestUrl)
    by (vm_compute; reflexivity).
  assert (Hpath : JS.startsWith (pathname Sample.requestUrl) "/_expo/@dom" = true)
    by reflexivity.
  assert (Hfile : searchParams_get (searchParams Sample.requestUrl) "file"
                  = Some "file:///project/src/Widget.js")
    by reflexivity.
  assert (Hscheme : JS.startsWith "file:///project/src/Widget.js" "file://" = true)
    by reflexivity.
  split; [auto 10 |].
  exact (proj1 (@served_shell_loads_written_entry Sample.host Sample.config
                  Sample.request Sample.response Sample.world _
                  Sample.requestUrl _ Hurl Hne Hparsed Hpath Hfile Hscheme)).
Defined.

(** ** The transformer beyond one module *)

#[local] Arguments Sha1.sha1 : simpl never.
#[local] Arguments JS.JSON_stringify : simpl never.

Lemma plugin_on_directive_eq `{Host} (isProduction : bool)
    (platform : option string) (st : ProgramState) :
  platformIs platform "web" = false ->
  In "use dom" (directives st) ->
  expoUseDomDirectivePlugin isProduction platform st =
    match filename st with
    | Some filePath =>
        if String.eqb filePath "" then Throw missingFilename
        else if occurs isNamedExport (body st) then Throw namedExportPresent
        else if negb (occurs isDefaultExport (body st))
        then Throw missingDefaultExport
        else
          let! lines :=
            proxyModule isProduction platform filePath (pathToFileURL filePath) in
          finish filePath st lines
    | None => Throw missingFilename
    end.
Proof.
  intros Hweb Hdir.
  destruct (plugin_cases isProduction platform st Hweb Hdir)
    as [[Hname Hthrow] | (filePath & Hfile & Hne & Hrewrite)].
  - rewrite Hthrow. destruct (filename st) as [filePath|]; [| reflexivity].
    unfold JS.truthy in Hname. apply negb_false_iff in Hname.
    now rewrite Hname.
  - rewrite Hrewrite, Hfile, rewrite_spec.
    apply String.eqb_neq in Hne. now rewrite Hne.
Qed.

(** X9.  The proxy keeps nothing of the module it replaces: for modules
    with the directive (platform other than web), the outcome of the
    transformer depends on the body only through whether a named and a
    default export occur in it; the statements, their order and the other
    directives play no part. *)
Theorem outcome_forgets_the_module `{Host} (isProduction : bool)
    (platform : option string) (st1 st2 : ProgramState) :
  platformIs platform "web" = false ->
  In "use dom" (directives st1) ->
  In "use dom" (directives st2) ->
  filename st1 = filename st2 ->
  metadata st1 = metadata st2 ->
  occurs isNamedExport (body st1) = occurs isNamedExport (body st2) ->
  occurs isDefaultExport (body st1) = occurs isDefaultExport (body st2) ->
  expoUseDomDirectivePlugin isProduction platform st1
  = expoUseDomDirectivePlugin isProduction platform st2.
Proof.
  intros Hweb Hdir1 Hdir2 Hfile Hmeta Hnamed Hdefault.
  rewrite !plugin_on_directive_eq by assumption.
  unfold finish. now rewrite Hfile, Hmeta, Hnamed, Hdefault.
Qed.

Lemma outcome_forgets_the_module_witness :
  (platformIs (Some "ios") "web" = false
   /\ In "use dom" (directives Sample.component)
   /\ In "use dom" (directives Sample.largerComponent)
   /\ filename Sample.component = filename Sample.largerComponent
   /\ metadata Sample.component = metadata Sample.largerComponent
   /\ occurs isNamedExport (body Sample.component)
      = occurs isNamedExport (body Sample.largerComponent)
   /\ occurs isDefaultExport (body Sample.component)
      = occurs isDefaultExport (body Sample.largerComponent))
  /\ @expoUseDomDirectivePlugin Sample.host true (Some "ios") Sample.component
     = @expoUseDomDirectivePlugin Sample.host true (Some "ios")
         Sample.largerComponent.
Proof.
  assert (Hweb : platformIs (Some "ios") "web" = false) by reflexivity.
  assert (Hdir1 : In "use dom" (directives Sample.component))
    by (simpl; auto).
  assert (Hdir2 : In "use dom" (directives Sample.largerComponent))
    by (simpl; auto).
  assert (Hfile : filename Sample.component = filename Sample.largerComponent)
    by reflexivity.
  assert (Hmeta : metadata Sample.component = metadata Sample.largerComponent)
    by reflexivity.
  assert (Hnamed : occurs isNamedExport (body Sample.component)
                   = occurs isNamedExport (body Sample.largerComponent))
    by reflexivity.
  assert (Hdefault : occurs isDefaultExport (body Sample.component)
                     = occurs isDefaultExport (body Sample.largerComponent))
    by reflexivity.
  split; [auto 10 |].
  exact (@outcome_forgets_the_module Sample.host true (Some "ios")
           Sample.component Sample.largerComponent
           Hweb Hdir1 Hdir2 Hfile Hmeta Hnamed Hdefault).
Defined.

(** X10.  The transformer does not apply to its own output: what a
    successful run returns is returned unchanged by a further run, on any
    platform and in either build mode, because the rewrite removes the
    directives. *)
Theorem transformer_is_idempotent `{Host} (isProduction : bool)
    (platform : option string) (st st' : ProgramState) :
  expoUseDomDirectivePlugin isProduction platform st = Ok st' ->
  expoUseDomDirectivePlugin isProduction platform st' = Ok st'.
Proof.
  intros Hok.
  destruct (platformIs platform "web") eqn:Hweb; [now apply plugin_web |].
  destruct (JS.truthy (filename st)) eqn:Hname.
  2: { rewrite (plugin_without_filename isProduction platform st Hweb Hname)
         in Hok. discriminate. }
  destruct (hasUseDomDirective st) eqn:Hdir.
  - assert (Hin : In "use dom" (directives st))
      by now apply hasUseDomDirective_In.
    rewrite (plugin_on_directive_eq isProduction platform st Hweb Hin) in Hok.
    destruct (filename st) as [filePath|] eqn:Hfile; [| discriminate].
    destruct (String.eqb filePath ""); [discriminate |].
    destruct (occurs isNamedExport (body st)); [discriminate |].
    destruct (occurs isDefaultExport (body st)); [| discriminate].
    cbn [negb] in Hok.
    destruct (proxyModule isProduction platform filePath
                (pathToFileURL filePath)) as [lines|e]; [| discriminate].
    cbn [bind] in Hok.
    apply finish_succeeds in Hok as (ast & fields & _ & _ & ->).
    apply plugin_without_directive; [| reflexivity].
    cbn [filename]. now rewrite Hfile.
  - rewrite (plugin_without_directive isProduction platform st Hname Hdir)
      in Hok.
    injection Hok as <-. now apply plugin_without_directive.
Qed.

Lemma transformer_is_idempotent_witness :
  @expoUseDomDirectivePlugin Sample.host true (Some "ios") Sample.component
  = Ok Sample.compiled
  /\ @expoUseDomDirectivePlugin Sample.host true (Some "ios") Sample.compiled
     = Ok Sample.compiled.
Proof.
  assert (Hok : @expoUseDomDirectivePlugin Sample.host true (Some "ios")
                  Sample.component = Ok Sample.compiled)
    by (vm_compute; reflexivity).
  split; [exact Hok |].
  exact (@transformer_is_idempotent Sample.host true (Some "ios")
           Sample.component Sample.compiled Hok).
Defined.

(** X11.  For a module with the directive (platform other than web) each
    of the three validation errors is raised in its own case and in no
    other: the missing-filename error exactly when no filename is known;
    the named-export error exactly when a filename is known and a named
    export occurs, whether or not a default export does; the
    missing-default error exactly when a filename is known and neither
    kind of export occurs.  The build mode, the platform, the parser and
    the metadata have no say in these. *)
Theorem validation_errors_by_case `{Host} (isProduction : bool)
    (platform : option string) (st : ProgramState) :
  platformIs platform "web" = false ->
  In "use dom" (directives st) ->
  (expoUseDomDirectivePlugin isProduction platform st = Throw missingFilename
   <-> JS.truthy (filename st) = false)
  /\ (expoUseDomDirectivePlugin isProduction platform st
      = Throw namedExportPresent
      <-> JS.truthy (filename st) = true
          /\ occurs isNamedExport (body st) = true)
  /\ (expoUseDomDirectivePlugin isProduction platform st
      = Throw missingDefaultExport
      <-> JS.truthy (filename st) = true
          /\ occurs isNamedExport (body st) = false
          /\ occurs isDefaultExport (body st) = false).
Proof.
  intros Hweb Hdir.
  rewrite (plugin_on_directive_eq isProduction platform st Hweb Hdir).
  unfold JS.truthy.
  destruct (filename st) as [filePath|].
  2: { repeat split; try reflexivity; try discriminate;
       intros [Hno _]; discriminate. }
  destruct (String.eqb filePath "").
  { repeat split; try reflexivity; try discriminate;
      intros [Hno _]; discriminate. }
  destruct (occurs isNamedExport (body st)).
  { repeat split; try reflexivity; try discriminate.
    intros (_ & Hno & _). discriminate. }
  destruct (occurs isDefaultExport (body st)); cbn [negb].
  2: { repeat split; try reflexivity; try discriminate.
       intros [_ Hno]. discriminate. }
  assert (Hother : forall e,
            (let! lines :=
               proxyModule isProduction platform filePath
                 (pathToFileURL filePath) in
             finish filePath st lines) = Throw e ->
            e <> missingFilename /\ e <> namedExportPresent
            /\ e <> missingDefaultExport).
  { intros e He. unfold proxyModule in He.
    destruct (sourceDeclaration isProduction platform filePath
                (pathToFileURL filePath)) as [source|e0] eqn:Hsource.
    - cbn [bind] in He. unfold finish in He.
      destruct (template_ast _); [| injection He as <-; repeat split; discriminate].
      destruct (metadata st); cbn in He; [discriminate |].
      injection He as <-. repeat split; discriminate.
    - cbn [bind] in He. injection He as <-.
      unfold sourceDeclaration in Hsource.
      destruct isProduction; [| discriminate].
      destruct (platformIs platform "ios"); [discriminate |].
      destruct (platformIs platform "android"); [discriminate |].
      injection Hsource as <-. repeat split; discriminate. }
  split; [| split]; split.
  - intros Hthrow. apply Hother in Hthrow as (Hno & _). congruence.
  - discriminate.
  - intros Hthrow. apply Hother in Hthrow as (_ & Hno & _). congruence.
  - intros [_ Hno]. discriminate.
  - intros Hthrow. apply Hother in Hthrow as (_ & _ & Hno). congruence.
  - intros (_ & _ & Hno). discriminate.
Qed.

Lemma validation_errors_by_case_witness :
  (platformIs (Some "ios") "web" = false
   /\ In "use dom" (directives Sample.unnamedComponent))
  /\ @expoUseDomDirectivePlugin Sample.host false (Some "ios")
       Sample.unnamedComponent = Throw missingFilename.
Proof.
  assert (Hweb : platformIs (Some "ios") "web" = false) by reflexivity.
  assert (Hdir : In "use dom" (directives Sample.unnamedComponent))
    by (simpl; auto).
  split; [auto |].
  apply (proj1 (@validation_errors_by_case Sample.host false (Some "ios")
                  Sample.unnamedComponent Hweb Hdir)).
  reflexivity.
Defined.

(** ** The shell, whatever its arguments *)

Lemma includes_inside (before s after needle : string) :
  JS.includes s needle = true ->
  JS.includes (before ++ s ++ after) needle = true.
Proof.
  intros Hs. apply includes_spec in Hs as (pre & post & ->).
  apply includes_spec. exists (before ++ pre), (post ++ after).
  now rewrite !append_assoc.
Qed.

Lemma whenTruthy_empty (f : string -> string) :
  JS.whenTruthy (Some "") f = JS.whenTruthy None f.
Proof. reflexivity. Qed.

(** X12.  Whatever src and title are, the shell begins with the doctype
    and holds the root container and the closing tags; and an empty src or
    title counts as an absent one. *)
Theorem shell_frame (src title : option string) :
  JS.startsWith (getDomComponentHtml src title) (JS.newline ++ "<!DOCTYPE html>")
  = true
  /\ JS.includes (getDomComponentHtml src title)
       ("<div id=" ++ quoted "root" ++ "></div>") = true
  /\ JS.includes (getDomComponentHtml src title) ("</body>" ++ JS.newline ++ "</html>")
     = true
  /\ getDomComponentHtml (Some "") title = getDomComponentHtml None title
  /\ getDomComponentHtml src (Some "") = getDomComponentHtml src None.
Proof.
  unfold getDomComponentHtml.
  split; [reflexivity |].
  split.
  { rewrite <- (append_assoc htmlHead).
    apply includes_inside. vm_compute. reflexivity. }
  split.
  { rewrite <- !append_assoc.
    replace (_ ++ htmlTail) with ((htmlHead
      ++ JS.whenTruthy title (fun t => "<title>" ++ t ++ "</title>")
      ++ htmlMiddle
      ++ JS.whenTruthy src (fun s =>
           "<script crossorigin src=" ++ JS.dquote ++ s ++ JS.dquote
             ++ "></script>")) ++ htmlTail ++ "")
      by now rewrite append_empty_r, !append_assoc.
    apply includes_inside. vm_compute. reflexivity. }
  split; reflexivity.
Qed.

(** X13.  When there is a src, the script tag is the last thing in the
    body: it comes right after the root container and is followed by the
    closing tags only, so the root is there when the bundle runs. *)
Theorem script_follows_root (src : string) (title : option string) :
  src <> "" ->
  exists before,
    getDomComponentHtml (Some src) title
    = before ++ "<div id=" ++ quoted "root" ++ "></div>" ++ JS.newline
        ++ "        <script crossorigin src=" ++ quoted src ++ "></script>"
        ++ JS.newline ++ "    </body>" ++ JS.newline ++ "</html>".
Proof.
  intros Hsrc. unfold getDomComponentHtml.
  rewrite (whenTruthy_Some src) by exact Hsrc.
  exists (htmlHead
            ++ JS.whenTruthy title (fun t => "<title>" ++ t ++ "</title>")
            ++ String.substring 0 (String.length htmlMiddle - 30) htmlMiddle).
  rewrite !append_assoc. do 2 f_equal.
  replace htmlMiddle
    with (String.substring 0 (String.length htmlMiddle - 30) htmlMiddle
            ++ "<div id=" ++ quoted "root" ++ "></div>" ++ JS.newline
            ++ "        ") at 1
    by (vm_compute; reflexivity).
  unfold quoted. rewrite !append_assoc. reflexivity.
Qed.

Lemma script_follows_root_witness :
  "x.js" <> ""
  /\ exists before,
       getDomComponentHtml (Some "x.js") (Some "T")
       = before ++ "<div id=" ++ quoted "root" ++ "></div>" ++ JS.newline
           ++ "        <script crossorigin src=" ++ quoted "x.js" ++ "></script>"
           ++ JS.newline ++ "    </body>" ++ JS.newline ++ "</html>".
Proof.
  assert (Hsrc : "x.js" <> "") by discriminate.
  split; [exact Hsrc |].
  exact (script_follows_root "x.js" (Some "T") Hsrc).
Defined.

(** X14.  Whatever characters the path of the file has, the two arguments
    that the entry module hands to [registerDOMComponent] are string
    literals that read back as the import specifier: after [import(] comes
    a literal of the specifier, then [), ], then a literal of the specifier
    again, then [);] and the end of the text. *)
Theorem entry_specifier_reads_back `{Host} (cfg : Config) (file : string) :
  let specifier :=
    relativeImport (generatedEntryPath cfg file) (entryFilePath file) in
  exists first second,
    entryText cfg file
    = "
// Entry file for the web-side of a DOM Component.
import { registerDOMComponent } from 'expo/dom/internal';

registerDOMComponent(() => import(" ++ first
    /\ Literal.readLiteral first = Some (specifier, "), " ++ second)
    /\ Literal.readLiteral second = Some (specifier, ");" ++ JS.newline).
Proof.
  cbv zeta.
  set (specifier :=
         relativeImport (generatedEntryPath cfg file) (entryFilePath file)).
  exists (JS.JSON_stringify specifier ++ "), "
            ++ JS.JSON_stringify specifier ++ ");" ++ JS.newline),
    (JS.JSON_stringify specifier ++ ");" ++ JS.newline).
  split; [reflexivity |].
  split; apply readLiteral_JSON_stringify.
Qed.


(** ** POSIX, on the sample project *)

Lemma posix_entry_location_witness :
  (projectRoot Sample.config = "/" ++ JS.join "/" ["project"]
   /\ Forall (fun seg => Posix.properSegment seg = true) ["project"])
  /\ @generatedEntryPath (Posix.host "/") Sample.config Sample.widget
     = "/" ++ JS.join "/"
                (["project"]
                   ++ [".expo"; "@dom";
                       Sha1.sha1 (@entryFilePath (Posix.host "/") Sample.widget)
                         ++ ".js"]).
Proof.
  assert (Hroot : projectRoot Sample.config = "/" ++ JS.join "/" ["project"])
    by reflexivity.
  assert (Hsegs : Forall (fun seg => Posix.properSegment seg = true) ["project"])
    by (repeat constructor).
  split; [auto |].
  exact (posix_entry_location "/" Sample.config ["project"] Sample.widget
           Hroot Hsegs).
Defined.

Lemma posix_response_titled_witness :
  (url Sample.request
   = Some "/_expo/@dom/Widget.js?file=file:///project/src/Widget.js"
   /\ "/_expo/@dom/Widget.js?file=file:///project/src/Widget.js" <> ""
   /\ @coerceUrl (Posix.host "/")
        "/_expo/@dom/Widget.js?file=file:///project/src/Widget.js"
      = Some Sample.requestUrl
   /\ JS.startsWith (pathname Sample.requestUrl) "/_expo/@dom" = true
   /\ searchParams_get (searchParams Sample.requestUrl) "file"
      = Some "file:///project/src/Widget.js"
   /\ JS.startsWith "file:///project/src/Widget.js" "file://" = true)
  /\ exists html,
       body_sent
         (snd (fst (@createDomComponentsMiddleware (Posix.host "/")
                      Sample.config Sample.request Sample.response
                      Sample.world)))
       = Some html
       /\ JS.includes html
            ("<title>" ++ Posix.basename "file:///project/src/Widget.js"
               ++ "</title>") = true.
Proof.
  assert (Hurl : url Sample.request
                 = Some "/_expo/@dom/Widget.js?file=file:///project/src/Widget.js")
    by reflexivity.
  assert (Hne : "/_expo/@dom/Widget.js?file=file:///project/src/Widget.js" <> "")
    by discriminate.
  assert (Hparsed : @coerceUrl (Posix.host "/")
                      "/_expo/@dom/Widget.js?file=file:///project/src/Widget.js"
                    = Some Sample.requestUrl)
    by (vm_compute; reflexivity).
  assert (Hpath : JS.startsWith (pathname Sample.requestUrl) "/_expo/@dom" = true)
    by reflexivity.
  assert (Hfile : searchParams_get (searchParams Sample.requestUrl) "file"
                  = Some "file:///project/src/Widget.js")
    by reflexivity.
  assert (Hscheme : JS.startsWith "file:///project/src/Widget.js" "file://" = true)
    by reflexivity.
  split; [auto 10 |].
  exact (posix_response_titled "/" Sample.config Sample.request Sample.response
           Sample.world _ Sample.requestUrl _
           Hurl Hne Hparsed Hpath Hfile Hscheme).
Defined.

(** ** What else a served response keeps, and development builds *)




(** X19.  A development build is the same for every platform other than
    web, known or not: the platform is only looked at in production. *)
Theorem development_ignores_platform `{Host} (platform1 platform2 : option string)
    (st : ProgramState) :
  platformIs platform1 "web" = false ->
  platformIs platform2 "web" = false ->
  expoUseDomDirectivePlugin false platform1 st
  = expoUseDomDirectivePlugin false platform2 st.
Proof.
  intros Hweb1 Hweb2. unfold expoUseDomDirectivePlugin.
  rewrite Hweb1, Hweb2.
  destruct (JS.truthy (filename st)); [| reflexivity]. cbn [negb].
  destruct (hasUseDomDirective st); [| reflexivity]. cbn [negb].
  destruct (filename st) as [filePath|]; [| reflexivity].
  unfold rewrite, proxyModule.
  now rewrite !sourceDeclaration_development.
Qed.

Lemma development_ignores_platform_witness :
  (platformIs (Some "ios") "web" = false /\ platformIs None "web" = false)
  /\ @expoUseDomDirectivePlugin Sample.host false (Some "ios") Sample.component
     = @expoUseDomDirectivePlugin Sample.host false None Sample.component.
Proof.
  assert (Hweb1 : platformIs (Some "ios") "web" = false) by reflexivity.
  assert (Hweb2 : platformIs None "web" = false) by reflexivity.
  split; [auto |].
  exact (@development_ignores_platform Sample.host (Some "ios") None
           Sample.component Hweb1 Hweb2).
Defined.
